(** * load_saved_calculation.py: loading and displaying a saved calculation

    A shallow embedding of [load_saved_calculation.py]: the loader
    [load_calculated_data] and the parts of the display script that select the
    slice to show, normalise it and pick the colour of each peak marker.

    Numbers.  The script works on NumPy float64 arrays.  A finite float is a
    rational, and comparisons of finite floats are comparisons of rationals,
    so array elements are values of [Q]; the result of a division is an
    [fval], which adds the infinities and NaN that NumPy produces when the
    divisor is zero.  Rounding of quotients and signed zeros are not
    modelled.

    Effects.  A Python call either returns or raises: [outcome].  The file
    system is read-only for this script and is an argument of the loader;
    what the loader prints is returned next to its outcome. *)

From Stdlib Require Import QArith Qminmax Qround Lia String Ascii DecimalString.
From stdpp Require Import base list.

Local Open Scope nat_scope.

(** ** Python outcomes *)

Inductive exn : Set :=
  | IndexError
  | ValueError
  | OSError.

Inductive outcome (A : Type) : Type :=
  | Returned (a : A)
  | Raised (e : exn).

Arguments Returned {A} a.
Arguments Raised {A} e.

#[global] Instance outcome_ret : MRet outcome := fun A a => Returned a.

#[global] Instance outcome_bind : MBind outcome := fun A B k m =>
  match m with
  | Returned a => k a
  | Raised e => Raised e
  end.

(** [for x in xs: acc = body x acc], stopping at the first exception. *)
Fixpoint for_each {A S : Type} (xs : list A) (body : A -> S -> outcome S) (acc : S)
  : outcome S :=
  match xs with
  | [] => Returned acc
  | x :: rest => acc' ← body x acc; for_each rest body acc'
  end.

(** [[f(x) for x in xs]], stopping at the first exception. *)
Fixpoint collect {A B : Type} (f : A -> outcome B) (xs : list A) : outcome (list B) :=
  match xs with
  | [] => Returned []
  | x :: rest => y ← f x; ys ← collect f rest; Returned (y :: ys)
  end.

(** [range(n)] for a Python int [n]: empty when [n <= 0]. *)
Definition range (n : Z) : list nat := seq 0 (Z.to_nat n).

(** [int(x)] for a float [x]: truncation towards zero. *)
Definition py_int (x : Q) : Z :=
  if Qle_bool 0 x then Qfloor x else Qceiling x.

(** [str(i)] for a non-negative int. *)
Definition str (i : nat) : string := NilEmpty.string_of_uint (Nat.to_uint i).

(** [seq[i]] on a Python list, for [i >= 0]. *)
Definition list_getitem {A : Type} (l : list A) (i : nat) : outcome A :=
  match l !! i with
  | Some x => Returned x
  | None => Raised IndexError
  end.

(** ** os.path *)

Module os_path.

Definition sep : ascii := "/"%char.

Definition startswith_sep (s : string) : bool :=
  match s with
  | String c _ => Ascii.eqb c sep
  | EmptyString => false
  end.

Fixpoint endswith_sep (s : string) : bool :=
  match s with
  | EmptyString => false
  | String c EmptyString => Ascii.eqb c sep
  | String _ rest => endswith_sep rest
  end.

(** [join(a, b)], as [posixpath] defines it. *)
Definition join (a b : string) : string :=
  if startswith_sep b then b
  else match a with
       | EmptyString => b
       | _ => if endswith_sep a then (a ++ b)%string
              else (a ++ String sep b)%string
       end.

End os_path.

(** ** The file system the script reads

    [fs_exists p] is [os.path.exists(p)].  [fs_numbers p] is the content of
    the text file at [p], the values of each line ([None]: no file can be
    read at [p]).  Files with tokens that are not numbers are not modelled. *)

Record filesystem : Type := {
  fs_exists : string -> bool;
  fs_numbers : string -> option (list (list Q))
}.

(** ** The part of NumPy the script uses *)

(** The result of a float division. *)
Inductive fval : Set :=
  | Fin (q : Q)
  | PInf
  | NInf
  | NaN.

Module np.

(** Arrays of at most two dimensions, as [loadtxt] returns them: shape [()],
    [(n,)] and [(r, c)].  The rows of a [Mat] have one length. *)
Inductive ndarray : Type :=
  | Scalar (x : Q)
  | Vec (xs : list Q)
  | Mat (xss : list (list Q)).

(** The three-dimensional array [Delta], with its shape. *)
Record ndarray3 : Type := {
  dim0 : nat;
  dim1 : nat;
  dim2 : nat;
  cells : list (list (list Q))
}.

Definition ncols (xss : list (list Q)) : nat :=
  match xss with
  | [] => 0
  | r :: _ => length r
  end.

(** [a.size] *)
Definition size (a : ndarray) : nat :=
  match a with
  | Scalar _ => 1
  | Vec xs => length xs
  | Mat xss => length xss * ncols xss
  end.

Definition is_empty_row (r : list Q) : bool :=
  match r with
  | [] => true
  | _ => false
  end.

Definition is_single (r : list Q) : bool :=
  match r with
  | [_] => true
  | _ => false
  end.

(** [np.squeeze] of a table with at least one row: axes of length one are
    removed. *)
Definition squeeze (rows : list (list Q)) : ndarray :=
  match rows with
  | [[x]] => Scalar x
  | [r] => Vec r
  | _ => if forallb is_single rows then Vec (concat rows) else Mat rows
  end.

(** [np.loadtxt(path)] with its default [ndmin=0]: blank lines are skipped,
    all lines must have the same number of values, and the table read is
    squeezed. *)
Definition loadtxt (fs : filesystem) (path : string) : outcome ndarray :=
  match fs_numbers fs path with
  | None => Raised OSError
  | Some lines =>
      let rows := List.filter (fun r => negb (is_empty_row r)) lines in
      match rows with
      | [] => Returned (Vec [])
      | r0 :: _ =>
          if forallb (fun r => length r =? length r0) rows
          then Returned (squeeze rows)
          else Raised ValueError
      end
  end.

(** [np.zeros((rows, cols, N))] *)
Definition zeros (rows cols N : nat) : ndarray3 :=
  {| dim0 := rows; dim1 := cols; dim2 := N;
     cells := replicate rows (replicate cols (replicate N 0%Q)) |}.

(** Broadcasting of one axis to length [n]: the axis has length [n], or
    length one and is repeated. *)
Definition stretch {A : Type} (n : nat) (l : list A) : option (list A) :=
  if length l =? n then Some l
  else match l with
       | [x] => Some (replicate n x)
       | _ => None
       end.

(** Broadcasting of an array to shape [(rows, cols)]: shapes are aligned at
    their last axis. *)
Definition broadcast_to (X : ndarray) (rows cols : nat) : outcome (list (list Q)) :=
  match X with
  | Scalar x => Returned (replicate rows (replicate cols x))
  | Vec xs =>
      match stretch cols xs with
      | Some r => Returned (replicate rows r)
      | None => Raised ValueError
      end
  | Mat xss =>
      match mapM (stretch cols) xss with
      | Some rs =>
          match stretch rows rs with
          | Some M => Returned M
          | None => Raised ValueError
          end
      | None => Raised ValueError
      end
  end.

(** [D[:,:,i] = X], for [i] an index of the last axis. *)
Definition setitem_slice (D : ndarray3) (i : nat) (X : ndarray) : outcome ndarray3 :=
  if i <? dim2 D then
    M ← broadcast_to X (dim0 D) (dim1 D);
    Returned {| dim0 := dim0 D; dim1 := dim1 D; dim2 := dim2 D;
                cells := zip_with (zip_with (fun cell x => <[i:=x]> cell)) (cells D) M |}
  else Raised IndexError.

(** [D[:,:,i]] *)
Definition getitem_slice (D : ndarray3) (i : nat) : outcome (list (list Q)) :=
  if i <? dim2 D then Returned (map (map (fun cell => nth i cell 0%Q)) (cells D))
  else Raised IndexError.

(** [X[:,j]] *)
Definition getitem_column (X : ndarray) (j : nat) : outcome (list Q) :=
  match X with
  | Mat xss => if j <? ncols xss then Returned (map (fun r => nth j r 0%Q) xss)
               else Raised IndexError
  | _ => Raised IndexError
  end.

(** [a[i]] for [i >= 0]: an element of a one-dimensional array, a row of a
    two-dimensional one; a 0-d array cannot be indexed. *)
Definition getitem (a : ndarray) (i : nat) : outcome ndarray :=
  match a with
  | Scalar _ => Raised IndexError
  | Vec xs => x ← list_getitem xs i; Returned (Scalar x)
  | Mat xss => r ← list_getitem xss i; Returned (Vec r)
  end.

Definition ravel (a : ndarray) : list Q :=
  match a with
  | Scalar x => [x]
  | Vec xs => xs
  | Mat xss => concat xss
  end.

(** [np.max] and [np.min] of the elements of an array. *)
Definition amax (xs : list Q) : outcome Q :=
  match xs with
  | [] => Raised ValueError
  | x :: rest => Returned (fold_left Qmax rest x)
  end.

Definition amin (xs : list Q) : outcome Q :=
  match xs with
  | [] => Raised ValueError
  | x :: rest => Returned (fold_left Qmin rest x)
  end.

(** The binary search of [np.searchsorted(a, key)] with its default
    [side='left'], on the index interval [lo, hi).  [fuel] bounds the
    number of halvings. *)
Fixpoint binsearch_left (fuel : nat) (a : list Q) (key : Q) (lo hi : nat) : nat :=
  match fuel with
  | O => lo
  | S fuel' =>
      if lo <? hi then
        let mid := lo + (hi - lo) / 2 in
        match Qlt_le_dec (nth mid a 0%Q) key with
        | left _ => binsearch_left fuel' a key (mid + 1) hi
        | right _ => binsearch_left fuel' a key lo mid
        end
      else lo
  end.

(** [np.searchsorted(a, key)]: [a] must be one-dimensional. *)
Definition searchsorted (a : ndarray) (key : Q) : outcome nat :=
  match a with
  | Vec xs => Returned (binsearch_left (length xs) xs key 0 (length xs))
  | _ => Raised ValueError
  end.

(** [x / m] on floats: a zero divisor gives NaN or an infinity. *)
Definition true_divide (x m : Q) : fval :=
  if Qeq_bool m 0 then
    match (x ?= 0)%Q with
    | Eq => NaN
    | Gt => PInf
    | Lt => NInf
    end
  else Fin (x / m).

(** [np.maximum] and [np.minimum] on division results: NaN propagates. *)
Definition fmaximum (a b : fval) : fval :=
  match a, b with
  | NaN, _ | _, NaN => NaN
  | PInf, _ | _, PInf => PInf
  | NInf, x | x, NInf => x
  | Fin x, Fin y => Fin (Qmax x y)
  end.

Definition fminimum (a b : fval) : fval :=
  match a, b with
  | NaN, _ | _, NaN => NaN
  | NInf, _ | _, NInf => NInf
  | PInf, x | x, PInf => x
  | Fin x, Fin y => Fin (Qmin x y)
  end.

Definition amax_f (xs : list fval) : outcome fval :=
  match xs with
  | [] => Raised ValueError
  | x :: rest => Returned (fold_left fmaximum rest x)
  end.

Definition amin_f (xs : list fval) : outcome fval :=
  match xs with
  | [] => Raised ValueError
  | x :: rest => Returned (fold_left fminimum rest x)
  end.

End np.

(** ** load_calculated_data *)

(** [calc_data] is the Python list [[l0, dl, w, Delta]]. *)
Record calc_data : Type := {
  l0 : np.ndarray;
  dl : np.ndarray;
  w : np.ndarray;
  Delta : np.ndarray3
}.

(** What [load_calculated_data] returns: the pair [(calc_data, spectrum)], or
    [None] after the bare [return]. *)
Definition loaded : Type := option (calc_data * np.ndarray).

Definition slice_path (directory : string) (i : nat) : string :=
  os_path.join directory ("Delta_" ++ str i ++ ".txt")%string.

(** The body of the loader once the directory is found. *)
Definition load_from (fs : filesystem) (directory : string) : outcome loaded :=
  l0 ← np.loadtxt fs (os_path.join directory "l0.txt");
  dl ← np.loadtxt fs (os_path.join directory "dl.txt");
  w ← np.loadtxt fs (os_path.join directory "w.txt");
  spectrum ← np.loadtxt fs (os_path.join directory "spectrum.txt");
  let rows := np.size dl in
  let cols := np.size l0 in
  let N := np.size w in
  Delta ← for_each (range (Z.of_nat N))
            (fun i D => X ← np.loadtxt fs (slice_path directory i);
                        np.setitem_slice D i X)
            (np.zeros rows cols N);
  Returned (Some ({| l0 := l0; dl := dl; w := w; Delta := Delta |}, spectrum)).

(** [load_calculated_data(directory)]: the lines printed and the outcome. *)
Definition load_calculated_data (fs : filesystem) (directory : string)
  : list string * outcome loaded :=
  if negb (fs_exists fs directory) then
    if fs_exists fs (os_path.join "calculations" directory)
    then ([], load_from fs (os_path.join "calculations" directory))
    else (["Error could not find " ++ directory]%string, Returned None)
  else ([], load_from fs directory).

(** ** The display script *)

(** [display_width]: [np.max(w)] unless [--width] is given. *)
Definition display_width (width : option Q) (w : np.ndarray) : outcome Q :=
  match width with
  | None => np.amax (np.ravel w)
  | Some v => Returned v
  end.

(** [wi = np.searchsorted(w, display_width)] and the sample [w[wi]] that the
    script prints and displays. *)
Definition select_slice (w : np.ndarray) (width : option Q)
  : outcome (nat * np.ndarray) :=
  v ← display_width width w;
  wi ← np.searchsorted w v;
  x ← np.getitem w wi;
  Returned (wi, x).

(** [npeaks]: 2 unless [--npeaks] is given. *)
Definition npeaks_of (arg : option Q) : Z :=
  match arg with
  | None => 2%Z
  | Some x => py_int x
  end.

Definition clrs : list string := ["C0"; "C1"; "C2"; "C3"; "C4"; "C5"]%string.

(** [d = Delta[:,:,wi]/np.max(Delta[:,:,wi])] *)
Definition normalized_slice (Delta : np.ndarray3) (wi : nat) : outcome (list (list fval)) :=
  s ← np.getitem_slice Delta wi;
  m ← np.amax (concat s);
  Returned (map (map (fun x => np.true_divide x m)) s).

(** [spectrum[:,1]/np.max(spectrum[:,1])] *)
Definition normalized_spectrum (spectrum : np.ndarray) : outcome (list fval) :=
  col ← np.getitem_column spectrum 1;
  m ← np.amax col;
  Returned (map (fun x => np.true_divide x m) col).

(** A peak table of [find_optimum_peaks]: one row per sample of [w]; columns
    1 and 2 are the centre and the width of the peak. *)
Definition peak_table : Type := list (list Q).

Definition peak_entry (peak : list peak_table) (j wi col : nat) : outcome Q :=
  t ← list_getitem peak j;
  row ← list_getitem t wi;
  list_getitem row col.

(** One marker of the heat map: position and colour. *)
Record marker : Type := {
  marker_x : Q;
  marker_y : Q;
  marker_c : string
}.

(** The marker of peak [j]:
    [ax1.plot(peak[j][wi,1], peak[j][wi,2], 'o', c=clrs[j])] *)
Definition marker_of (peak : list peak_table) (wi j : nat) : outcome marker :=
  x ← peak_entry peak j wi 1;
  y ← peak_entry peak j wi 2;
  c ← list_getitem clrs j;
  Returned {| marker_x := x; marker_y := y; marker_c := c |}.

(** [for j in range(npeaks): ax1.plot(...)] *)
Definition peak_markers (peak : list peak_table) (wi : nat) (npeaks : Z)
  : outcome (list marker) :=
  collect (marker_of peak wi) (range npeaks).

(** ** Predicates used in the statements *)

(** A strictly ascending axis: each sample is below the next one. *)
Fixpoint strictly_ascending (xs : list Q) : bool :=
  match xs with
  | [] => true
  | x :: rest =>
      match rest with
      | [] => true
      | y :: _ => match Qlt_le_dec x y with left _ => true | right _ => false end
      end && strictly_ascending rest
  end.

(** An index that splits an axis at a key: the samples before it are below
    the key, the samples from it on are not. *)
Definition splits_at (a : list Q) (key : Q) (r : nat) : Prop :=
  r <= length a /\
  (forall j, j < r -> (nth j a 0 < key)%Q) /\
  (forall j, r <= j -> j < length a -> (key <= nth j a 0)%Q).

(** A table with [rows] lines of [cols] values. *)
Definition is_table (rows cols : nat) (t : list (list Q)) : Prop :=
  length t = rows /\ Forall (fun r => length r = cols) t.

(** The cells of an array of shape [(rows, cols, N)]. *)
Definition has_shape (rows cols N : nat) (D : np.ndarray3) : Prop :=
  np.dim0 D = rows /\ np.dim1 D = cols /\ np.dim2 D = N /\
  length (np.cells D) = rows /\
  Forall (fun r => length r = cols /\ Forall (fun cell => length cell = N) r) (np.cells D).

Definition is_finite (x : fval) : bool :=
  match x with
  | Fin _ => true
  | _ => false
  end.

(** ** A saved calculation used in the examples

    Axes [l0 = [1,2,3]], [dl = [10,20]], [w = [0.5,1.0]] and two slices of
    two rows and three columns, saved under [calculations/run1]. *)

Definition file_table : Type := list (string * list (list Q)).

Fixpoint lookup_file (files : file_table) (p : string) : option (list (list Q)) :=
  match files with
  | [] => None
  | (q, t) :: rest => if String.eqb p q then Some t else lookup_file rest p
  end.

Definition fs_of (dirs : list string) (files : file_table) : filesystem :=
  {| fs_exists := fun p => existsb (String.eqb p) dirs
                           || match lookup_file files p with Some _ => true | None => false end;
     fs_numbers := lookup_file files |}.

Definition run1_files : file_table :=
  [ ("calculations/run1/l0.txt", [[1]; [2]; [3]]);
    ("calculations/run1/dl.txt", [[10]; [20]]);
    ("calculations/run1/w.txt", [[0.5]; [1.0]]);
    ("calculations/run1/spectrum.txt", [[400; 2]; [500; 4]; [600; 1]]);
    ("calculations/run1/Delta_0.txt", [[1; 2; 3]; [4; 5; 6]]);
    ("calculations/run1/Delta_1.txt", [[7; 8; 9]; [10; 11; 12]]) ]%string%Q.

Definition run1_fs : filesystem := fs_of ["calculations"; "calculations/run1"]%string run1_files.

(** A calculation with a single sample of [l0] and two of [dl]: every slice
    file has two lines of one value. *)
Definition narrow_files : file_table :=
  [ ("narrow/l0.txt", [[1]]);
    ("narrow/dl.txt", [[10]; [20]]);
    ("narrow/w.txt", [[0.5]; [1.0]]);
    ("narrow/spectrum.txt", [[400; 2]; [500; 4]]);
    ("narrow/Delta_0.txt", [[7]; [8]]);
    ("narrow/Delta_1.txt", [[5]; [6]]) ]%string%Q.

Definition narrow_fs : filesystem := fs_of ["narrow"]%string narrow_files.

(** A fallback directory that exists but holds no files. *)
Definition bare_fs : filesystem := fs_of ["calculations"; "calculations/bare"]%string [].

(** Seven peak tables over an axis of two samples. *)
Definition seven_peaks : list peak_table := replicate 7 [[0; 1; 2]; [0; 3; 4]]%Q.

(** The grid and the spectrum of the saved calculation [run1], and a
    spectrum whose intensities are all zero. *)
Definition run1_Delta : np.ndarray3 :=
  {| np.dim0 := 2; np.dim1 := 3; np.dim2 := 2;
     np.cells := [ [[1; 7]; [2; 8]; [3; 9]];
                   [[4; 10]; [5; 11]; [6; 12]] ]%Q |}.

Definition run1_spectrum : np.ndarray := np.Mat [[400; 2]; [500; 4]; [600; 1]]%Q.

Definition dark_spectrum : np.ndarray := np.Mat [[400; 0]; [500; 0]]%Q.

(** The table of slice file [Delta_i] of [run1]. *)
Definition run1_slice (i : nat) : list (list Q) :=
  match i with
  | 0 => [[1; 2; 3]; [4; 5; 6]]%Q
  | _ => [[7; 8; 9]; [10; 11; 12]]%Q
  end.

(** ** Further parts of the display script *)

(** [extent=(np.min(l0), np.max(l0), np.min(dl), np.max(dl))] of the heat
    map. *)
Definition extent (l0 dl : np.ndarray) : outcome (Q * Q * Q * Q) :=
  left ← np.amin (np.ravel l0);
  right ← np.amax (np.ravel l0);
  bottom ← np.amin (np.ravel dl);
  top ← np.amax (np.ravel dl);
  Returned (left, right, bottom, top).

(** [ax2.set_ylim(0.0, 1.25)] *)
Definition ylim : Q * Q := (0, 1.25)%Q.

(** The loop of the loader over the slice files:
    [for i in range(N): Delta[:,:,i] = np.loadtxt(join(directory, 'Delta_' + str(i) + '.txt'))],
    run over the indices [idx]. *)
Definition load_slices (fs : filesystem) (directory : string) (idx : list nat)
    (D0 : np.ndarray3) : outcome np.ndarray3 :=
  for_each idx
    (fun i D => X ← np.loadtxt fs (slice_path directory i); np.setitem_slice D i X) D0.

(** Two file systems hold the same calculation files in a directory: the
    axis and spectrum files, and the slice files of the indices of [w]. *)
Definition same_calculation_files (fs1 fs2 : filesystem) (d : string) : Prop :=
  fs_numbers fs1 (os_path.join d "l0.txt") = fs_numbers fs2 (os_path.join d "l0.txt") /\
  fs_numbers fs1 (os_path.join d "dl.txt") = fs_numbers fs2 (os_path.join d "dl.txt") /\
  fs_numbers fs1 (os_path.join d "w.txt") = fs_numbers fs2 (os_path.join d "w.txt") /\
  fs_numbers fs1 (os_path.join d "spectrum.txt")
    = fs_numbers fs2 (os_path.join d "spectrum.txt") /\
  (forall wv i,
     np.loadtxt fs1 (os_path.join d "w.txt") = Returned wv ->
     i < np.size wv ->
     fs_numbers fs1 (slice_path d i) = fs_numbers fs2 (slice_path d i)).

(** The calculation [run1] with a stray third slice file and a note beside
    its files. *)
Definition run1_fs_more : filesystem :=
  fs_of ["calculations"; "calculations/run1"]%string
    (run1_files ++ [ ("calculations/run1/Delta_2.txt", [[0; 0; 0]; [0; 0; 0]]);
                     ("calculations/run1/notes.txt", [[2019]]) ]%string%Q).

(** A calculation of three rows of [dl] whose slice files hold one line. *)
Definition one_line_files : file_table :=
  [ ("flat/l0.txt", [[1]; [2]]);
    ("flat/dl.txt", [[10]; [20]; [30]]);
    ("flat/w.txt", [[0.5]; [1.0]]);
    ("flat/spectrum.txt", [[400; 2]; [500; 4]]);
    ("flat/Delta_0.txt", [[7; 8]]);
    ("flat/Delta_1.txt", [[5; 6]]) ]%string%Q.

Definition one_line_fs : filesystem := fs_of ["flat"]%string one_line_files.

Definition one_line_row (i : nat) : list Q :=
  match i with
  | 0 => [7; 8]%Q
  | _ => [5; 6]%Q
  end.

(** A calculation with a single sample of [w]. *)
Definition one_sample_files : file_table :=
  [ ("one/l0.txt", [[1]; [2]]);
    ("one/dl.txt", [[10]; [20]]);
    ("one/w.txt", [[0.5]]);
    ("one/spectrum.txt", [[400; 2]; [500; 4]]);
    ("one/Delta_0.txt", [[1; 2]; [3; 4]]) ]%string%Q.

Definition one_sample_fs : filesystem := fs_of ["one"]%string one_sample_files.

Definition one_sample_calc : calc_data :=
  {| l0 := np.Vec [1; 2]%Q; dl := np.Vec [10; 20]%Q; w := np.Scalar 0.5%Q;
     Delta := {| np.dim0 := 2; np.dim1 := 2; np.dim2 := 1;
                 np.cells := [ [[1]; [2]]; [[3]; [4]] ]%Q |} |}.

(** An axis file: the samples of the axis one per line, or all on one
    line. *)
Definition is_axis_file (lines : list (list Q)) (ws : list Q) : Prop :=
  lines = map (fun x => [x]) ws \/ lines = [ws].

(** The marker loop with what it has drawn.  [ax1.plot] is called for peak
    [j] once its arguments are evaluated, so when the loop raises, the
    markers of the peaks before the failing one are on the axes. *)
Fixpoint plot_each (f : nat -> outcome marker) (js : list nat)
  : list marker * outcome unit :=
  match js with
  | [] => ([], Returned tt)
  | j :: rest =>
      match f j with
      | Returned m => let (ms, r) := plot_each f rest in (m :: ms, r)
      | Raised e => ([], Raised e)
      end
  end.

Definition plot_peaks (peak : list peak_table) (wi : nat) (npeaks : Z)
  : list marker * outcome unit :=
  plot_each (marker_of peak wi) (range npeaks).

Example run1_loaded :
  load_calculated_data run1_fs "run1" =
  ([], Returned (Some
     ({| l0 := np.Vec [1; 2; 3]; dl := np.Vec [10; 20]; w := np.Vec [0.5; 1.0];
         Delta := run1_Delta |},
      run1_spectrum)))%Q.
Proof. vm_compute. reflexivity. Qed.

(** * Properties *)

(** ** Sorted axes and the binary search *)

Section Searchsorted.

Local Open Scope Q_scope.

Lemma strictly_ascending_cons x xs :
  strictly_ascending (x :: xs) = true ->
  strictly_ascending xs = true /\ Forall (fun y => x < y) xs.
Proof.
  revert x. induction xs as [|y ys IH]; intros x H.
  - split; [reflexivity | constructor].
  - cbn [strictly_ascending] in H. apply andb_prop in H as [Hxy Hrest].
    destruct (Qlt_le_dec x y) as [Hlt|]; [|discriminate].
    split; [exact Hrest|].
    constructor; [exact Hlt|].
    destruct (IH y Hrest) as [_ Hall].
    eapply Forall_impl; [exact Hall|].
    intros z Hz. cbn in Hz. eapply Qlt_trans; eassumption.
Qed.

Lemma strictly_ascending_nth xs i j :
  strictly_ascending xs = true ->
  (i < j)%nat -> (j < length xs)%nat ->
  nth i xs 0 < nth j xs 0.
Proof.
  revert i j. induction xs as [|x xs IH]; intros i j Hs Hij Hj; [cbn in Hj; lia|].
  destruct (strictly_ascending_cons _ _ Hs) as [Hrest Hall].
  destruct j as [|j]; [lia|]. cbn in Hj.
  destruct i as [|i]; cbn [nth].
  - rewrite Forall_forall in Hall. apply Hall.
    apply list_elem_of_In. apply nth_In. lia.
  - apply IH; [exact Hrest | lia | lia].
Qed.

Lemma ascending_nth_le xs i j :
  strictly_ascending xs = true ->
  (i <= j)%nat -> (j < length xs)%nat ->
  nth i xs 0 <= nth j xs 0.
Proof.
  intros Hs Hij Hj. destruct (Nat.eq_dec i j) as [->|Hne].
  - apply Qle_refl.
  - apply Qlt_le_weak. apply strictly_ascending_nth; [exact Hs | lia | exact Hj].
Qed.

Lemma binsearch_left_invariant a key :
  strictly_ascending a = true ->
  forall fuel lo hi,
    (hi - lo <= fuel)%nat -> (lo <= hi)%nat -> (hi <= length a)%nat ->
    (forall j, (j < lo)%nat -> nth j a 0 < key) ->
    (forall j, (hi <= j)%nat -> (j < length a)%nat -> key <= nth j a 0) ->
    splits_at a key (np.binsearch_left fuel a key lo hi).
Proof.
  intros Hs. induction fuel as [|fuel IH]; intros lo hi Hfuel Hle Hhi Hbelow Habove.
  - cbn. assert (lo = hi) as -> by lia.
    repeat split; [exact Hhi | exact Hbelow | exact Habove].
  - cbn [np.binsearch_left]. destruct (Nat.ltb_spec lo hi) as [Hlt|Hge].
    + assert ((hi - lo) / 2 < hi - lo)%nat as Hhalf
        by (apply Nat.div_lt; lia).
      set (mid := (lo + (hi - lo) / 2)%nat) in *.
      assert (lo <= mid /\ mid < hi)%nat as [Hlm Hmh] by (subst mid; lia).
      destruct (Qlt_le_dec (nth mid a 0) key) as [Hmid|Hmid].
      * apply IH; [lia | lia | exact Hhi | | exact Habove].
        intros j Hj. eapply Qle_lt_trans; [|exact Hmid].
        apply ascending_nth_le; [exact Hs | lia | lia].
      * apply IH; [ | lia | lia | exact Hbelow | ].
        -- subst mid. lia.
        -- intros j Hj Hlen. eapply Qle_trans; [exact Hmid|].
           apply ascending_nth_le; [exact Hs | lia | exact Hlen].
    + assert (lo = hi) as -> by lia.
      repeat split; [exact Hhi | exact Hbelow | exact Habove].
Qed.

Lemma searchsorted_splits ws key :
  strictly_ascending ws = true ->
  exists r, np.searchsorted (np.Vec ws) key = Returned r /\ splits_at ws key r.
Proof.
  intros Hs. eexists. split; [reflexivity|].
  apply binsearch_left_invariant; [exact Hs | lia | lia | lia | | ].
  - intros j Hj. lia.
  - intros j Hj Hlen. lia.
Qed.

(** Two indices that split the axis at ordered keys are ordered. *)
Lemma splits_at_monotonic a k1 k2 r1 r2 :
  splits_at a k1 r1 -> splits_at a k2 r2 -> k1 <= k2 -> (r1 <= r2)%nat.
Proof.
  intros (Hr1 & Hb1 & _) (Hr2 & _ & Ha2) Hk.
  destruct (Nat.le_gt_cases r1 r2) as [|Hgt]; [assumption|]. exfalso.
  specialize (Hb1 r2 Hgt). specialize (Ha2 r2 (Nat.le_refl _) ltac:(lia)).
  apply (Qlt_irrefl k1).
  eapply Qle_lt_trans; [exact Hk|]. eapply Qle_lt_trans; eassumption.
Qed.

End Searchsorted.

(** ** Maximum and minimum of an axis *)

Section Extrema.

Local Open Scope Q_scope.

Lemma Qmax_lt_r x y : x < y -> Qmax x y = y.
Proof.
  intros H. assert ((x ?= y) = Lt) as E by (apply Qlt_alt; exact H).
  unfold Qmax, GenericMinMax.gmax. rewrite E. reflexivity.
Qed.

Lemma Qmin_lt_l x y : x < y -> Qmin x y = x.
Proof.
  intros H. assert ((x ?= y) = Lt) as E by (apply Qlt_alt; exact H).
  unfold Qmin, GenericMinMax.gmin. rewrite E. reflexivity.
Qed.

Lemma amax_ascending ws :
  strictly_ascending ws = true -> ws <> [] ->
  np.amax ws = Returned (nth (length ws - 1) ws 0).
Proof.
  destruct ws as [|x xs]; [congruence|]. intros Hs _.
  cbn [np.amax length]. f_equal.
  revert x Hs. induction xs as [|y ys IH]; intros x Hs; [reflexivity|].
  destruct (strictly_ascending_cons _ _ Hs) as [Hrest Hall].
  inversion Hall as [|? ? Hxy _]; subst.
  cbn [fold_left]. rewrite (Qmax_lt_r _ _ Hxy), (IH y Hrest).
  cbn [length]. replace (S (S (length ys)) - 1)%nat with (S (S (length ys) - 1)) by lia.
  reflexivity.
Qed.

Lemma amin_ascending x xs :
  strictly_ascending (x :: xs) = true -> np.amin (x :: xs) = Returned x.
Proof.
  intros Hs. cbn [np.amin]. f_equal.
  destruct (strictly_ascending_cons _ _ Hs) as [_ Hall]. clear Hs.
  induction Hall as [|y ys Hxy _ IH]; [reflexivity|].
  cbn [fold_left]. rewrite (Qmin_lt_l _ _ Hxy). exact IH.
Qed.

End Extrema.

(** ** Slice selection *)

Lemma select_slice_given ws v r :
  np.searchsorted (np.Vec ws) v = Returned r ->
  select_slice (np.Vec ws) (Some v) =
  match ws !! r with
  | Some x => Returned (r, np.Scalar x)
  | None => Raised IndexError
  end.
Proof.
  intros H. unfold select_slice, display_width. cbn [mbind outcome_bind].
  rewrite H. cbn. unfold list_getitem. destruct (ws !! r); reflexivity.
Qed.

(** C6: slice selection is monotonic in the requested value: on a strictly
    ascending tertiary axis, the index selected for [v1] is at most the index
    selected for [v2] whenever [v1 <= v2]. *)
Theorem searchsorted_monotonic (ws : list Q) (v1 v2 : Q) :
  strictly_ascending ws = true ->
  (v1 <= v2)%Q ->
  exists i1 i2,
    np.searchsorted (np.Vec ws) v1 = Returned i1 /\
    np.searchsorted (np.Vec ws) v2 = Returned i2 /\
    i1 <= i2.
Proof.
  intros Hs Hv.
  destruct (searchsorted_splits ws v1 Hs) as (i1 & E1 & S1).
  destruct (searchsorted_splits ws v2 Hs) as (i2 & E2 & S2).
  exists i1, i2. repeat split; [exact E1 | exact E2 |].
  eapply splits_at_monotonic; eassumption.
Qed.

Lemma searchsorted_monotonic_witness :
  exists i1 i2,
    np.searchsorted (np.Vec [0.5; 1.0]%Q) 0.7%Q = Returned i1 /\
    np.searchsorted (np.Vec [0.5; 1.0]%Q) 5%Q = Returned i2 /\
    i1 <= i2.
Proof.
  apply (searchsorted_monotonic [0.5; 1.0]%Q 0.7%Q 5%Q).
  - reflexivity.
  - unfold Qle; simpl; lia.
Defined.

(** On a one-dimensional axis: when no width is requested the requested
    value is the maximum of the axis (which a non-empty axis has), and on a
    strictly ascending axis this default selects the last index [len(w)-1];
    the value displayed is the sample of the axis at that index. *)
Lemma default_width_selects_last (ws : list Q) :
  strictly_ascending ws = true ->
  display_width None (np.Vec ws) = np.amax ws /\
  (ws <> [] -> exists m, np.amax ws = Returned m) /\
  (forall m,
     display_width None (np.Vec ws) = Returned m ->
     np.searchsorted (np.Vec ws) m = Returned (length ws - 1) /\
     ws !! (length ws - 1) = Some m /\
     select_slice (np.Vec ws) None = Returned (length ws - 1, np.Scalar m)).
Proof.
  intros Hs. split; [reflexivity|]. split.
  { intros Hne. rewrite (amax_ascending ws Hs Hne). eauto. }
  intros m Hm. cbn [display_width np.ravel] in Hm.
  assert (ws <> []) as Hne by (intros ->; discriminate).
  assert (0 < length ws) as Hlen by (destruct ws; [congruence | cbn; lia]).
  assert (m = nth (length ws - 1) ws 0%Q) as Em.
  { rewrite (amax_ascending ws Hs Hne) in Hm. congruence. }
  assert (ws !! (length ws - 1) = Some m) as Hlast.
  { rewrite Em.
    destruct (nth_lookup_or_length ws (length ws - 1) 0%Q) as [H|H]; [exact H | lia]. }
  destruct (searchsorted_splits ws m Hs) as (r & Er & Hr & Hb & Ha).
  assert (r = length ws - 1) as ->.
  { destruct (Nat.lt_trichotomy r (length ws - 1)) as [Hlt | [Heq | Hgt]];
      [exfalso | exact Heq | exfalso].
    - specialize (Ha r (Nat.le_refl _) ltac:(lia)).
      apply (Qlt_irrefl m). eapply Qle_lt_trans; [exact Ha|].
      rewrite Em. apply strictly_ascending_nth; [exact Hs | lia | lia].
    - apply (Qlt_irrefl m). rewrite Em at 1. apply (Hb (length ws - 1)). lia. }
  split; [exact Er|]. split; [exact Hlast|].
  unfold select_slice. cbn [display_width np.ravel]. rewrite Hm.
  cbn [mbind outcome_bind]. rewrite Er. cbn. unfold list_getitem. rewrite Hlast.
  reflexivity.
Qed.

(** On a one-dimensional, strictly ascending axis with minimum [lo] and
    maximum [hi]: a requested value below [lo] selects index 0 and displays
    [lo]; a requested value above [hi] gives the insertion index [len(w)] and
    the lookup [w[wi]] raises [IndexError]. *)
Lemma select_out_of_range (ws : list Q) (lo hi v : Q) :
  strictly_ascending ws = true ->
  np.amin ws = Returned lo ->
  np.amax ws = Returned hi ->
  ((v < lo)%Q -> select_slice (np.Vec ws) (Some v) = Returned (0, np.Scalar lo)) /\
  ((hi < v)%Q ->
     np.searchsorted (np.Vec ws) v = Returned (length ws) /\
     select_slice (np.Vec ws) (Some v) = Raised IndexError).
Proof.
  intros Hs Hlo Hhi.
  assert (ws <> []) as Hne by (intros ->; discriminate).
  assert (0 < length ws) as Hlen by (destruct ws; [congruence | cbn; lia]).
  rewrite (amax_ascending ws Hs Hne) in Hhi.
  assert (nth (length ws - 1) ws 0%Q = hi) as Ehi by congruence. clear Hhi.
  assert (nth 0 ws 0%Q = lo) as Elo.
  { destruct ws as [|x xs]; [congruence|].
    rewrite (amin_ascending _ _ Hs) in Hlo. cbn [nth]. congruence. }
  destruct (searchsorted_splits ws v Hs) as (r & Er & Hr & Hb & Ha).
  split; intros Hv.
  - assert (r = 0) as ->.
    { destruct r as [|r]; [reflexivity|]. exfalso.
      apply (Qlt_irrefl v). eapply Qlt_trans; [exact Hv|].
      rewrite <- Elo. apply (Hb 0). lia. }
    rewrite (select_slice_given _ _ _ Er).
    destruct (nth_lookup_or_length ws 0 0%Q) as [H|H]; [|lia].
    rewrite H, Elo. reflexivity.
  - assert (r = length ws) as ->.
    { destruct (Nat.eq_dec r (length ws)) as [|Hnr]; [assumption|]. exfalso.
      specialize (Ha r (Nat.le_refl _) ltac:(lia)).
      apply (Qlt_irrefl v). eapply Qle_lt_trans; [exact Ha|].
      eapply Qle_lt_trans; [|exact Hv]. rewrite <- Ehi.
      apply ascending_nth_le; [exact Hs | lia | lia]. }
    split; [exact Er|].
    rewrite (select_slice_given _ _ _ Er).
    rewrite (lookup_ge_None_2 ws (length ws)); [reflexivity | lia].
Qed.

(** C1 fails as stated: on the axis [[1,2,3]] the value 4 is above the
    maximum, the index selected is 3 and not the last index 2, and the script
    stops with [IndexError]. *)
Lemma above_maximum_not_clamped :
  strictly_ascending [1; 2; 3]%Q = true /\
  np.amax [1; 2; 3]%Q = Returned 3%Q /\
  (3 < 4)%Q /\
  np.searchsorted (np.Vec [1; 2; 3]%Q) 4%Q <> Returned (length [1; 2; 3]%Q - 1) /\
  (forall x, select_slice (np.Vec [1; 2; 3]%Q) (Some 4%Q) <> Returned (length [1; 2; 3]%Q - 1, x)).
Proof.
  split; [reflexivity|]. split; [reflexivity|]. split; [reflexivity|].
  split; [vm_compute; discriminate|].
  intros x. vm_compute. discriminate.
Qed.

(** C3 (as the code has it): on the axes [l0=[1,2,3]], [dl=[10,20]],
    [w=[0.5,1.0]] with two distinct 2x3 slices, the calculation loads;
    requesting 0.7 selects index 1 and requesting -5 selects index 0, each
    displaying the slice of that index; requesting 5 gives index 2, which is
    past the last sample, and the script stops with [IndexError]. *)
Theorem scenario_selection :
  exists cd spectrum,
    load_calculated_data run1_fs "run1" = ([], Returned (Some (cd, spectrum))) /\
    l0 cd = np.Vec [1; 2; 3]%Q /\ dl cd = np.Vec [10; 20]%Q /\ w cd = np.Vec [0.5; 1.0]%Q /\
    np.getitem_slice (Delta cd) 0 = Returned [[1; 2; 3]; [4; 5; 6]]%Q /\
    np.getitem_slice (Delta cd) 1 = Returned [[7; 8; 9]; [10; 11; 12]]%Q /\
    select_slice (w cd) (Some 0.7%Q) = Returned (1, np.Scalar 1.0%Q) /\
    select_slice (w cd) (Some (-5)%Q) = Returned (0, np.Scalar 0.5%Q) /\
    np.searchsorted (w cd) 5%Q = Returned 2 /\
    select_slice (w cd) (Some 5%Q) = Raised IndexError.
Proof.
  eexists _, _. split; [vm_compute; reflexivity|].
  cbn [l0 dl w Delta]. repeat split; vm_compute; reflexivity.
Qed.

(** C3 fails as stated: requesting 5 on [w=[0.5,1.0]] does not select
    index 1. *)
Lemma scenario_request_5_not_index_1 :
  np.searchsorted (np.Vec [0.5; 1.0]%Q) 5%Q <> Returned 1 /\
  (forall x, select_slice (np.Vec [0.5; 1.0]%Q) (Some 5%Q) <> Returned (1, x)).
Proof.
  split; [vm_compute; discriminate|].
  intros x. vm_compute. discriminate.
Qed.

(** ** Directory resolution *)

Lemma load_from_not_None fs d : load_from fs d <> Returned None.
Proof.
  unfold load_from, mbind, outcome_bind.
  repeat match goal with
         | |- context [match ?m with Returned _ => _ | Raised _ => _ end] =>
             destruct m
         end; discriminate.
Qed.

(** C4 (as the code has it): for a directory name that does not exist as
    given but exists under [calculations], the loader reports no missing
    directory (it prints nothing and does not return [None]) and its output is
    that of the loader called on the qualified path [calculations/name]: it
    returns a calculation exactly when that call does. *)
Theorem fallback_same_as_qualified (fs : filesystem) (directory : string) :
  fs_exists fs directory = false ->
  fs_exists fs (os_path.join "calculations" directory) = true ->
  load_calculated_data fs directory =
    load_calculated_data fs (os_path.join "calculations" directory) /\
  fst (load_calculated_data fs directory) = [] /\
  snd (load_calculated_data fs directory) <> Returned None.
Proof.
  intros Hno Hyes. unfold load_calculated_data.
  rewrite Hno, Hyes. cbn [negb fst snd].
  repeat split.
  apply load_from_not_None.
Qed.

Lemma fallback_same_as_qualified_witness :
  load_calculated_data run1_fs "run1" =
    load_calculated_data run1_fs (os_path.join "calculations" "run1") /\
  fst (load_calculated_data run1_fs "run1") = [] /\
  snd (load_calculated_data run1_fs "run1") <> Returned None.
Proof.
  apply (fallback_same_as_qualified run1_fs "run1"); reflexivity.
Defined.

(** C4 fails as stated: the name [bare] does not exist, [calculations/bare]
    does, and the loader does not succeed: reading [l0.txt] raises. *)
Lemma fallback_directory_without_files :
  fs_exists bare_fs "bare" = false /\
  fs_exists bare_fs (os_path.join "calculations" "bare") = true /\
  load_calculated_data bare_fs "bare" = ([], Raised OSError).
Proof. repeat split. Qed.

(** C5: for a directory name that exists neither as given nor under
    [calculations], the loader prints the error naming the directory and
    returns [None]: no grid, whole or partial, is returned. *)
Theorem missing_directory_reported (fs : filesystem) (directory : string) :
  fs_exists fs directory = false ->
  fs_exists fs (os_path.join "calculations" directory) = false ->
  load_calculated_data fs directory =
    (["Error could not find " ++ directory]%string, Returned None).
Proof.
  intros Hno Hno'. unfold load_calculated_data. rewrite Hno, Hno'. reflexivity.
Qed.

Lemma missing_directory_reported_witness :
  load_calculated_data run1_fs "run2" =
    (["Error could not find run2"]%string, Returned None).
Proof.
  apply (missing_directory_reported run1_fs "run2"); reflexivity.
Defined.

(** ** Peak markers and their colours *)

Lemma list_getitem_raised {A : Type} (l : list A) i e :
  list_getitem l i = Raised e -> e = IndexError.
Proof. unfold list_getitem. destruct (l !! i); congruence. Qed.

Lemma peak_entry_raised peak j wi col e :
  peak_entry peak j wi col = Raised e -> e = IndexError.
Proof.
  unfold peak_entry, mbind, outcome_bind.
  destruct (list_getitem peak j) as [t|e1] eqn:E1;
    [|intros [= <-]; exact (list_getitem_raised _ _ _ E1)].
  destruct (list_getitem t wi) as [row|e2] eqn:E2;
    [|intros [= <-]; exact (list_getitem_raised _ _ _ E2)].
  apply list_getitem_raised.
Qed.

Lemma peak_markers_collect peak wi npeaks :
  peak_markers peak wi npeaks = collect (marker_of peak wi) (range npeaks).
Proof. reflexivity. Qed.

Lemma marker_of_raised peak wi j e :
  marker_of peak wi j = Raised e -> e = IndexError.
Proof.
  unfold marker_of, mbind, outcome_bind.
  destruct (peak_entry peak j wi 1) as [x|e1] eqn:E1;
    [|intros [= <-]; exact (peak_entry_raised _ _ _ _ _ E1)].
  destruct (peak_entry peak j wi 2) as [y|e2] eqn:E2;
    [|intros [= <-]; exact (peak_entry_raised _ _ _ _ _ E2)].
  destruct (list_getitem clrs j) as [c|e3] eqn:E3;
    [discriminate | intros [= <-]; exact (list_getitem_raised _ _ _ E3)].
Qed.

Lemma marker_of_past_palette peak wi j :
  length clrs <= j -> exists e, marker_of peak wi j = Raised e.
Proof.
  intros Hj. unfold marker_of, mbind, outcome_bind.
  destruct (peak_entry peak j wi 1); [|eauto].
  destruct (peak_entry peak j wi 2); [|eauto].
  unfold list_getitem. rewrite (lookup_ge_None_2 clrs j Hj). eauto.
Qed.

Lemma collect_cons {A B : Type} (f : A -> outcome B) (x : A) (xs : list A) :
  collect f (x :: xs) =
  match f x with
  | Returned y =>
      match collect f xs with
      | Returned ys => Returned (y :: ys)
      | Raised e => Raised e
      end
  | Raised e => Raised e
  end.
Proof. reflexivity. Qed.

Lemma collect_raised {A B : Type} (f : A -> outcome B) (xs : list A) (x : A) :
  x ∈ xs ->
  (forall y e, f y = Raised e -> e = IndexError) ->
  (exists e, f x = Raised e) ->
  collect f xs = Raised IndexError.
Proof.
  intros Hin Hexn [e He]. induction xs as [|y ys IH]; [inversion Hin|].
  rewrite collect_cons. destruct (f y) as [b|e'] eqn:Ey.
  - apply elem_of_cons in Hin as [->|Hin]; [congruence|].
    rewrite (IH Hin). reflexivity.
  - f_equal. eapply Hexn; eassumption.
Qed.

Lemma clrs_NoDup : NoDup clrs.
Proof.
  unfold clrs.
  repeat (apply NoDup_cons; split;
          [rewrite ?elem_of_cons, elem_of_nil; intros H; decompose [or] H;
           try discriminate; assumption|]).
  apply NoDup_nil_2.
Qed.

Lemma collect_markers peak wi n : forall s,
  s + n <= length clrs ->
  (forall j, s <= j -> j < s + n ->
     exists x y, peak_entry peak j wi 1 = Returned x /\ peak_entry peak j wi 2 = Returned y) ->
  exists ms,
    collect (marker_of peak wi) (seq s n) = Returned ms /\
    map marker_c ms = take n (drop s clrs).
Proof.
  induction n as [|n IH]; intros s Hs Hpeak.
  - exists []. split; reflexivity.
  - destruct (Hpeak s) as (x & y & Ex & Ey); [lia | lia |].
    destruct (lookup_lt_is_Some_2 clrs s) as [c Ec]; [lia|].
    destruct (IH (S s)) as (ms & Ems & Hms); [lia | intros j ? ?; apply Hpeak; lia |].
    exists ({| marker_x := x; marker_y := y; marker_c := c |} :: ms). split.
    + assert (marker_of peak wi s =
              Returned {| marker_x := x; marker_y := y; marker_c := c |}) as Em.
      { unfold marker_of, mbind, outcome_bind. rewrite Ex, Ey.
        unfold list_getitem. rewrite Ec. reflexivity. }
      cbn [seq]. rewrite collect_cons, Em, Ems. reflexivity.
    + cbn [map marker_c]. rewrite (drop_S _ _ _ Ec). cbn [take]. rewrite Hms. reflexivity.
Qed.

(** C9 (as the code has it): the colour of peak [j] is [clrs[j]], with no
    cycling.  For a peak count of at most the palette size (six), every peak
    index below the count gets its own palette colour and the markers are
    drawn (given the peak tables hold the entries read); for a larger peak
    count the loop raises [IndexError]. *)
Theorem peak_colours_within_palette (peak : list peak_table) (wi : nat) (npeaks : Z) :
  ((npeaks <= Z.of_nat (length clrs))%Z ->
   (forall j, j < Z.to_nat npeaks ->
      exists x y, peak_entry peak j wi 1 = Returned x /\ peak_entry peak j wi 2 = Returned y) ->
   exists ms,
     peak_markers peak wi npeaks = Returned ms /\
     map marker_c ms = take (Z.to_nat npeaks) clrs /\
     NoDup (map marker_c ms)) /\
  ((Z.of_nat (length clrs) < npeaks)%Z ->
   peak_markers peak wi npeaks = Raised IndexError).
Proof.
  split.
  - intros Hn Hpeak.
    destruct (collect_markers peak wi (Z.to_nat npeaks) 0) as (ms & Ems & Hms);
      [lia | intros j _ Hj; apply Hpeak; lia |].
    exists ms. rewrite peak_markers_collect. unfold range.
    split; [exact Ems|]. rewrite Hms, drop_0. split; [reflexivity|].
    apply (sublist_NoDup _ clrs); [apply clrs_NoDup | apply sublist_take].
  - intros Hn. rewrite peak_markers_collect.
    apply (collect_raised _ _ (length clrs)).
    + unfold range. apply list_elem_of_In, in_seq. lia.
    + apply marker_of_raised.
    + apply marker_of_past_palette. lia.
Qed.

Lemma peak_colours_within_palette_witness :
  (exists ms,
     peak_markers seven_peaks 1 2 = Returned ms /\
     map marker_c ms = take (Z.to_nat 2) clrs /\
     NoDup (map marker_c ms)) /\
  peak_markers seven_peaks 1 7 = Raised IndexError.
Proof.
  split.
  - apply (peak_colours_within_palette seven_peaks 1 2).
    + cbn. lia.
    + intros j Hj. change (Z.to_nat 2) with 2 in Hj.
      destruct j as [|[|j]]; [| | lia]; eexists _, _; split; reflexivity.
  - apply (peak_colours_within_palette seven_peaks 1 7). cbn. lia.
Defined.

(** C9 fails as stated: with seven peaks, all computed, the colour lookup of
    peak 6 is out of bounds and no marker list is produced. *)
Lemma seventh_peak_has_no_colour :
  (forall j, j < 7 ->
     exists x y, peak_entry seven_peaks j 1 1 = Returned x /\
                 peak_entry seven_peaks j 1 2 = Returned y) /\
  list_getitem clrs 6 = Raised IndexError /\
  peak_markers seven_peaks 1 7 = Raised IndexError.
Proof.
  split; [|split; reflexivity].
  intros j Hj.
  do 7 (destruct j as [|j]; [eexists _, _; split; reflexivity|]). lia.
Qed.

(** ** Normalisation of the displayed data *)

Section Normalisation.

Local Open Scope Q_scope.

Lemma Qmax_cases x y : Qmax x y = x \/ Qmax x y = y.
Proof. unfold Qmax, GenericMinMax.gmax. destruct (x ?= y); auto. Qed.

Lemma Qmin_cases x y : Qmin x y = x \/ Qmin x y = y.
Proof. unfold Qmin, GenericMinMax.gmin. destruct (x ?= y); auto. Qed.

Lemma fold_Qmax_spec rest : forall x,
  In (fold_left Qmax rest x) (x :: rest) /\
  Forall (fun y => y <= fold_left Qmax rest x) (x :: rest).
Proof.
  induction rest as [|y ys IH]; intros x; cbn [fold_left].
  - split; [left; reflexivity | repeat constructor; apply Qle_refl].
  - destruct (IH (Qmax x y)) as [Hin Hall].
    inversion Hall as [|? ? Hxy Hys]; subst. split.
    + destruct Hin as [Hin|Hin]; [|right; right; exact Hin].
      destruct (Qmax_cases x y) as [E|E]; rewrite E in *;
        [left | right; left]; exact Hin.
    + constructor; [|constructor]; [ | | exact Hys].
      * eapply Qle_trans; [apply Q.le_max_l | exact Hxy].
      * eapply Qle_trans; [apply Q.le_max_r | exact Hxy].
Qed.

Lemma fold_Qmin_spec rest : forall x,
  In (fold_left Qmin rest x) (x :: rest) /\
  Forall (fun y => fold_left Qmin rest x <= y) (x :: rest).
Proof.
  induction rest as [|y ys IH]; intros x; cbn [fold_left].
  - split; [left; reflexivity | repeat constructor; apply Qle_refl].
  - destruct (IH (Qmin x y)) as [Hin Hall].
    inversion Hall as [|? ? Hxy Hys]; subst. split.
    + destruct Hin as [Hin|Hin]; [|right; right; exact Hin].
      destruct (Qmin_cases x y) as [E|E]; rewrite E in *;
        [left | right; left]; exact Hin.
    + constructor; [|constructor]; [ | | exact Hys].
      * eapply Qle_trans; [exact Hxy | apply Q.le_min_l].
      * eapply Qle_trans; [exact Hxy | apply Q.le_min_r].
Qed.

Lemma amax_spec xs m :
  np.amax xs = Returned m -> In m xs /\ Forall (fun y => y <= m) xs.
Proof.
  destruct xs as [|x rest]; [discriminate|]. intros [= <-]. apply fold_Qmax_spec.
Qed.

Lemma amin_spec xs m :
  np.amin xs = Returned m -> In m xs /\ Forall (fun y => m <= y) xs.
Proof.
  destruct xs as [|x rest]; [discriminate|]. intros [= <-]. apply fold_Qmin_spec.
Qed.

Lemma amax_f_Fin xs :
  np.amax_f (map Fin xs) =
  match np.amax xs with Returned m => Returned (Fin m) | Raised e => Raised e end.
Proof.
  destruct xs as [|x rest]; [reflexivity|]. cbn [map np.amax_f np.amax]. f_equal.
  revert x. induction rest as [|y ys IH]; intros x; [reflexivity|].
  cbn [map fold_left np.fmaximum]. apply IH.
Qed.

Lemma amin_f_Fin xs :
  np.amin_f (map Fin xs) =
  match np.amin xs with Returned m => Returned (Fin m) | Raised e => Raised e end.
Proof.
  destruct xs as [|x rest]; [reflexivity|]. cbn [map np.amin_f np.amin]. f_equal.
  revert x. induction rest as [|y ys IH]; intros x; [reflexivity|].
  cbn [map fold_left np.fminimum]. apply IH.
Qed.

Lemma true_divide_nonzero x m : ~ m == 0 -> np.true_divide x m = Fin (x / m).
Proof.
  intros Hm. unfold np.true_divide.
  destruct (Qeq_bool m 0) eqn:E; [|reflexivity].
  apply Qeq_bool_eq in E. contradiction.
Qed.

Lemma true_divide_zero x m : m == 0 -> is_finite (np.true_divide x m) = false.
Proof.
  intros Hm. unfold np.true_divide.
  rewrite (Qeq_eq_bool _ _ Hm). destruct (x ?= 0); reflexivity.
Qed.

Lemma true_divide_zero_zero x m : m == 0 -> x == 0 -> np.true_divide x m = NaN.
Proof.
  intros Hm Hx. unfold np.true_divide.
  rewrite (Qeq_eq_bool _ _ Hm). apply Qeq_alt in Hx. rewrite Hx. reflexivity.
Qed.

Lemma Qdiv_le_compat x y m : 0 < m -> x <= y -> x / m <= y / m.
Proof.
  intros Hm Hxy. unfold Qdiv. apply Qmult_le_compat_r; [exact Hxy|].
  apply Qinv_le_0_compat, Qlt_le_weak, Hm.
Qed.

(** The maximum of a list divided by its own positive maximum is one. *)
Lemma amax_scaled xs m :
  np.amax xs = Returned m -> 0 < m ->
  exists q, np.amax (map (fun x => x / m) xs) = Returned q /\ q == 1.
Proof.
  intros Hmax Hm. destruct (amax_spec _ _ Hmax) as [Hin Hall].
  destruct (np.amax (map (fun x => x / m) xs)) as [q|e] eqn:E.
  - exists q. split; [reflexivity|].
    destruct (amax_spec _ _ E) as [Hq Hqall].
    apply in_map_iff in Hq as (x0 & <- & Hx0).
    rewrite Forall_forall in Hall, Hqall.
    assert (m / m == 1) as Hone.
    { unfold Qdiv. apply Qmult_inv_r. intros H0. rewrite H0 in Hm.
      exact (Qlt_irrefl 0 Hm). }
    apply Qle_antisym.
    + rewrite <- Hone. apply Qdiv_le_compat; [exact Hm|].
      apply Hall. apply list_elem_of_In. exact Hx0.
    + rewrite <- Hone. apply Hqall. apply list_elem_of_In.
      apply (in_map (fun x => x / m)). exact Hin.
  - destruct xs; [destruct Hin | discriminate].
Qed.

(** The minimum of a list of non-negative values divided by a positive
    value is non-negative. *)
Lemma amin_scaled xs m :
  xs <> [] -> 0 < m -> Forall (fun x => 0 <= x) xs ->
  exists q, np.amin (map (fun x => x / m) xs) = Returned q /\ 0 <= q.
Proof.
  intros Hne Hm Hpos.
  destruct (np.amin (map (fun x => x / m) xs)) as [q|e] eqn:E.
  - exists q. split; [reflexivity|].
    destruct (amin_spec _ _ E) as [Hq _].
    apply in_map_iff in Hq as (x0 & <- & Hx0).
    rewrite Forall_forall in Hpos.
    unfold Qdiv. apply Qmult_le_0_compat.
    + apply Hpos, list_elem_of_In, Hx0.
    + apply Qinv_le_0_compat, Qlt_le_weak, Hm.
  - destruct xs; [congruence | discriminate].
Qed.

End Normalisation.

Lemma normalized_slice_given Delta wi s m :
  np.getitem_slice Delta wi = Returned s ->
  np.amax (concat s) = Returned m ->
  normalized_slice Delta wi = Returned (map (map (fun x => np.true_divide x m)) s).
Proof.
  intros Hs Hm. unfold normalized_slice, mbind, outcome_bind. rewrite Hs, Hm. reflexivity.
Qed.

Lemma normalized_spectrum_given spectrum col m :
  np.getitem_column spectrum 1 = Returned col ->
  np.amax col = Returned m ->
  normalized_spectrum spectrum = Returned (map (fun x => np.true_divide x m) col).
Proof.
  intros Hc Hm. unfold normalized_spectrum, mbind, outcome_bind. rewrite Hc, Hm. reflexivity.
Qed.

Lemma getitem_slice_nonneg Delta wi s :
  np.getitem_slice Delta wi = Returned s ->
  Forall (Forall (Forall (fun x => (0 <= x)%Q))) (np.cells Delta) ->
  Forall (fun x => (0 <= x)%Q) (concat s).
Proof.
  unfold np.getitem_slice. destruct (wi <? np.dim2 Delta); [|discriminate].
  intros [= <-] Hall. apply Forall_concat.
  apply Forall_map. eapply Forall_impl; [exact Hall|].
  intros row Hrow. cbn. apply Forall_map. eapply Forall_impl; [exact Hrow|].
  intros cell Hcell. cbn.
  destruct (nth_lookup_or_length cell wi 0%Q) as [H|H].
  - rewrite Forall_forall in Hcell. apply Hcell. eapply list_elem_of_lookup_2, H.
  - rewrite nth_overflow by lia. apply Qle_refl.
Qed.

(** C7: the displayed slice is the slice of the grid at the selected index
    divided by that slice's own maximum; when that maximum is positive, the
    maximum of the displayed slice is 1, and its minimum is at least 0
    whenever every element of the grid is non-negative. *)
Theorem normalized_slice_range
    (Delta : np.ndarray3) (wi : nat) (s : list (list Q)) (m : Q) :
  np.getitem_slice Delta wi = Returned s ->
  np.amax (concat s) = Returned m ->
  (0 < m)%Q ->
  exists d,
    normalized_slice Delta wi = Returned d /\
    d = map (map (fun x => Fin (x / m))) s /\
    (exists q, np.amax_f (concat d) = Returned (Fin q) /\ (q == 1)%Q) /\
    (Forall (Forall (Forall (fun x => (0 <= x)%Q))) (np.cells Delta) ->
     exists q, np.amin_f (concat d) = Returned (Fin q) /\ (0 <= q)%Q).
Proof.
  intros Hs Hmax Hm.
  assert (~ (m == 0)%Q) as Hm0.
  { intros H0. rewrite H0 in Hm. exact (Qlt_irrefl 0 Hm). }
  exists (map (map (fun x => Fin (x / m))) s).
  assert (concat (map (map (fun x => Fin (x / m))) s)
          = map Fin (map (fun x => (x / m)%Q) (concat s))) as Hflat.
  { rewrite map_map. symmetry. apply concat_map. }
  split; [|split; [reflexivity|split]].
  - rewrite (normalized_slice_given _ _ _ _ Hs Hmax). f_equal.
    apply map_ext. intros row. apply map_ext. intros x.
    apply true_divide_nonzero, Hm0.
  - rewrite Hflat, amax_f_Fin.
    destruct (amax_scaled _ _ Hmax Hm) as (q & Eq & Hq).
    exists q. rewrite Eq. split; [reflexivity | exact Hq].
  - intros Hpos. rewrite Hflat, amin_f_Fin.
    destruct (amin_scaled (concat s) m) as (q & Eq & Hq).
    + intros E. rewrite E in Hmax. discriminate.
    + exact Hm.
    + eapply getitem_slice_nonneg; eassumption.
    + exists q. rewrite Eq. split; [reflexivity | exact Hq].
Qed.

Lemma normalized_slice_range_witness :
  exists d,
    normalized_slice run1_Delta 1 = Returned d /\
    d = map (map (fun x => Fin (x / 12))) [[7; 8; 9]; [10; 11; 12]]%Q /\
    (exists q, np.amax_f (concat d) = Returned (Fin q) /\ (q == 1)%Q) /\
    (Forall (Forall (Forall (fun x => (0 <= x)%Q))) (np.cells run1_Delta) ->
     exists q, np.amin_f (concat d) = Returned (Fin q) /\ (0 <= q)%Q).
Proof.
  apply (normalized_slice_range run1_Delta 1 [[7; 8; 9]; [10; 11; 12]]%Q 12%Q);
    reflexivity.
Defined.

(** C10: neither normalisation guards against a zero maximum.  The heat-map
    slice is divided by its own maximum and the spectrum intensities by their
    own maximum; the quotients are all finite when that maximum is not zero,
    and none is finite when it is zero; a slice or an intensity column of
    zeros has maximum zero and is displayed as NaN throughout. *)
Theorem normalization_has_no_zero_guard
    (Delta : np.ndarray3) (wi : nat) (s : list (list Q)) (ms : Q)
    (spectrum : np.ndarray) (col : list Q) (mc : Q) :
  np.getitem_slice Delta wi = Returned s ->
  np.amax (concat s) = Returned ms ->
  np.getitem_column spectrum 1 = Returned col ->
  np.amax col = Returned mc ->
  (normalized_slice Delta wi = Returned (map (map (fun x => np.true_divide x ms)) s) /\
   (~ (ms == 0)%Q ->
    map (map (fun x => np.true_divide x ms)) s = map (map (fun x => Fin (x / ms))) s) /\
   ((ms == 0)%Q ->
    Forall (Forall (fun x => is_finite (np.true_divide x ms) = false)) s) /\
   (Forall (Forall (fun x => (x == 0)%Q)) s ->
    (ms == 0)%Q /\
    map (map (fun x => np.true_divide x ms)) s = map (map (fun _ => NaN)) s)) /\
  (normalized_spectrum spectrum = Returned (map (fun x => np.true_divide x mc) col) /\
   (~ (mc == 0)%Q ->
    map (fun x => np.true_divide x mc) col = map (fun x => Fin (x / mc)) col) /\
   ((mc == 0)%Q ->
    Forall (fun x => is_finite (np.true_divide x mc) = false) col) /\
   (Forall (fun x => (x == 0)%Q) col ->
    (mc == 0)%Q /\
    map (fun x => np.true_divide x mc) col = map (fun _ => NaN) col)).
Proof.
  intros Hs Hms Hc Hmc. split.
  - split; [exact (normalized_slice_given _ _ _ _ Hs Hms)|]. split; [|split].
    + intros Hne. apply map_ext. intros row. apply map_ext. intros x.
      apply true_divide_nonzero, Hne.
    + intros H0. apply Forall_forall. intros row _. apply Forall_forall. intros x _.
      apply true_divide_zero, H0.
    + intros Hz.
      assert (ms == 0)%Q as H0.
      { destruct (amax_spec _ _ Hms) as [Hin _].
        apply in_concat in Hin as (row & Hrow & Hin).
        rewrite Forall_forall in Hz. specialize (Hz row (proj2 (list_elem_of_In _ _) Hrow)).
        rewrite Forall_forall in Hz. apply Hz, list_elem_of_In, Hin. }
      split; [exact H0|].
      apply map_ext_Forall. eapply Forall_impl; [exact Hz|]. intros row Hrow. cbn.
      apply map_ext_Forall. eapply Forall_impl; [exact Hrow|]. intros x Hx. cbn.
      apply true_divide_zero_zero; assumption.
  - split; [exact (normalized_spectrum_given _ _ _ Hc Hmc)|]. split; [|split].
    + intros Hne. apply map_ext. intros x. apply true_divide_nonzero, Hne.
    + intros H0. apply Forall_forall. intros x _. apply true_divide_zero, H0.
    + intros Hz.
      assert (mc == 0)%Q as H0.
      { destruct (amax_spec _ _ Hmc) as [Hin _].
        rewrite Forall_forall in Hz. apply Hz, list_elem_of_In, Hin. }
      split; [exact H0|].
      apply map_ext_Forall. eapply Forall_impl; [exact Hz|]. intros x Hx. cbn.
      apply true_divide_zero_zero; assumption.
Qed.

Lemma normalization_has_no_zero_guard_witness :
  (normalized_slice (np.zeros 2 2 2) 1 =
     Returned (map (map (fun x => np.true_divide x 0)) [[0; 0]; [0; 0]]%Q) /\
   (~ (0 == 0)%Q ->
    map (map (fun x => np.true_divide x 0)) [[0; 0]; [0; 0]]%Q =
    map (map (fun x => Fin (x / 0))) [[0; 0]; [0; 0]]%Q) /\
   ((0 == 0)%Q ->
    Forall (Forall (fun x => is_finite (np.true_divide x 0) = false)) [[0; 0]; [0; 0]]%Q) /\
   (Forall (Forall (fun x => (x == 0)%Q)) [[0; 0]; [0; 0]]%Q ->
    (0 == 0)%Q /\
    map (map (fun x => np.true_divide x 0)) [[0; 0]; [0; 0]]%Q =
    map (map (fun _ => NaN)) [[0; 0]; [0; 0]]%Q)) /\
  (normalized_spectrum dark_spectrum =
     Returned (map (fun x => np.true_divide x 0) [0; 0]%Q) /\
   (~ (0 == 0)%Q ->
    map (fun x => np.true_divide x 0) [0; 0]%Q = map (fun x => Fin (x / 0)) [0; 0]%Q) /\
   ((0 == 0)%Q ->
    Forall (fun x => is_finite (np.true_divide x 0) = false) [0; 0]%Q) /\
   (Forall (fun x => (x == 0)%Q) [0; 0]%Q ->
    (0 == 0)%Q /\
    map (fun x => np.true_divide x 0) [0; 0]%Q = map (fun _ => NaN) [0; 0]%Q)).
Proof.
  apply (normalization_has_no_zero_guard
           (np.zeros 2 2 2) 1 [[0; 0]; [0; 0]]%Q 0%Q dark_spectrum [0; 0]%Q 0%Q);
    reflexivity.
Defined.

(** ** Reconstruction of the grid *)

Section Reconstruction.

Variables rows cols N : nat.

(** Assignment of a slice, on the cells. *)
Lemma insert_row_same (i : nat) (row : list (list Q)) (r : list Q) :
  Forall (fun cell => length cell = N) row ->
  length row = length r -> i < N ->
  map (fun cell => nth i cell 0%Q) (zip_with (fun cell x => <[i:=x]> cell) row r) = r.
Proof.
  intros Hrow. revert r. induction Hrow as [|cell row Hcell _ IH]; intros r Hlen Hi.
  - destruct r; [reflexivity | discriminate].
  - destruct r as [|x r]; [discriminate|]. cbn [zip_with map]. f_equal.
    + rewrite nth_lookup, list_lookup_insert_eq by lia. reflexivity.
    + apply IH; [cbn in Hlen; lia | exact Hi].
Qed.

Lemma insert_row_other (i j : nat) (row : list (list Q)) (r : list Q) :
  length row = length r -> i <> j ->
  map (fun cell => nth j cell 0%Q) (zip_with (fun cell x => <[i:=x]> cell) row r)
  = map (fun cell => nth j cell 0%Q) row.
Proof.
  revert r. induction row as [|cell row IH]; intros r Hlen Hij.
  - reflexivity.
  - destruct r as [|x r]; [discriminate|]. cbn [zip_with map]. f_equal.
    + rewrite !nth_lookup, list_lookup_insert_ne by exact Hij. reflexivity.
    + apply IH; [cbn in Hlen; lia | exact Hij].
Qed.

Lemma insert_row_shape (i : nat) (row : list (list Q)) (r : list Q) :
  Forall (fun cell => length cell = N) row ->
  length row = length r ->
  length (zip_with (fun cell x => <[i:=x]> cell) row r) = length row /\
  Forall (fun cell => length cell = N) (zip_with (fun cell x => <[i:=x]> cell) row r).
Proof.
  intros Hrow. revert r. induction Hrow as [|cell row Hcell _ IH]; intros r Hlen.
  - destruct r; [split; [reflexivity | constructor] | discriminate].
  - destruct r as [|x r]; [discriminate|]. cbn [zip_with length].
    destruct (IH r) as [Hl Hf]; [cbn in Hlen; lia|].
    split; [lia|]. constructor; [rewrite length_insert; exact Hcell | exact Hf].
Qed.

Lemma insert_cells_spec (i : nat) (cells M : list (list (list Q))) (T : list (list Q)) :
  Forall (fun row => length row = cols /\ Forall (fun cell => length cell = N) row) cells ->
  Forall (fun r => length r = cols) T ->
  length cells = length T ->
  i < N ->
  M = zip_with (zip_with (fun cell x => <[i:=x]> cell)) cells T ->
  length M = length cells /\
  Forall (fun row => length row = cols /\ Forall (fun cell => length cell = N) row) M /\
  map (map (fun cell => nth i cell 0%Q)) M = T /\
  (forall j, j <> i ->
     map (map (fun cell => nth j cell 0%Q)) M = map (map (fun cell => nth j cell 0%Q)) cells).
Proof.
  intros Hcells. revert M T.
  induction Hcells as [|row cells [Hrow Hcs] _ IH]; intros M T HT Hlen Hi ->.
  - destruct T; [|discriminate]. cbn [zip_with map length].
    repeat split; constructor.
  - destruct T as [|r T]; [discriminate|].
    inversion HT as [|? ? Hr HT']; subst.
    destruct (IH _ T HT' ltac:(cbn in Hlen; lia) Hi eq_refl) as (Hl & Hf & Hsame & Hother).
    destruct (insert_row_shape i row r Hcs ltac:(lia)) as [Hrl Hrf].
    cbn [zip_with map length]. repeat split.
    + lia.
    + constructor; [split; [lia | exact Hrf] | exact Hf].
    + f_equal; [apply insert_row_same; [exact Hcs | lia | exact Hi] | exact Hsame].
    + intros j Hj. f_equal; [apply insert_row_other; [lia | congruence] | exact (Hother j Hj)].
Qed.

Lemma setitem_slice_spec (D : np.ndarray3) (i : nat) (X : np.ndarray) (T : list (list Q)) :
  has_shape rows cols N D ->
  i < N ->
  np.broadcast_to X rows cols = Returned T ->
  is_table rows cols T ->
  exists D',
    np.setitem_slice D i X = Returned D' /\
    has_shape rows cols N D' /\
    np.getitem_slice D' i = Returned T /\
    (forall j, j <> i -> np.getitem_slice D' j = np.getitem_slice D j).
Proof.
  intros (H0 & H1 & H2 & Hlen & Hcells) Hi Hb [HTlen HT].
  destruct (insert_cells_spec i (np.cells D) _ T Hcells HT ltac:(lia) Hi eq_refl)
    as (Hl & Hf & Hsame & Hother).
  unfold np.setitem_slice. rewrite H2, (proj2 (Nat.ltb_lt i N) Hi), H0, H1, Hb.
  cbn [mbind outcome_bind]. eexists. split; [reflexivity|].
  unfold has_shape, np.getitem_slice. cbn [np.dim0 np.dim1 np.dim2 np.cells].
  rewrite H2, (proj2 (Nat.ltb_lt i N) Hi).
  repeat split; [lia | exact Hf | f_equal; exact Hsame |].
  intros j Hj. destruct (j <? N); [|reflexivity]. f_equal. exact (Hother j Hj).
Qed.

Lemma filter_all {A : Type} (f : A -> bool) (l : list A) :
  Forall (fun x => f x = true) l -> List.filter f l = l.
Proof.
  induction 1 as [|x l Hx _ IH]; [reflexivity|].
  cbn [List.filter]. rewrite Hx, IH. reflexivity.
Qed.

Hypothesis rows_pos : 1 <= rows.
Hypothesis cols_pos : 1 <= cols.

(** A file that holds a table of [rows] lines of [cols] values is read as
    that table, squeezed. *)
Lemma loadtxt_table (fs : filesystem) (p : string) (t : list (list Q)) :
  fs_numbers fs p = Some t ->
  is_table rows cols t ->
  np.loadtxt fs p = Returned (np.squeeze t).
Proof.
  intros Hp [Hlen Ht]. unfold np.loadtxt. rewrite Hp.
  rewrite filter_all.
  - destruct t as [|r0 t']; [cbn in Hlen; lia|].
    assert (forallb (fun r => length r =? length r0) (r0 :: t') = true) as ->;
      [|reflexivity].
    apply forallb_forall. intros r Hr. apply Nat.eqb_eq.
    rewrite Forall_forall in Ht.
    rewrite (Ht r (proj2 (list_elem_of_In _ _) Hr)).
    symmetry. apply Ht. left.
  - eapply Forall_impl; [exact Ht|]. intros r Hr. cbn in Hr.
    destruct r; [cbn in Hr; lia | reflexivity].
Qed.

(** Unless the table is a single column of several lines, the squeezed
    table broadcasts back to the table. *)
Lemma broadcast_squeeze (t : list (list Q)) :
  is_table rows cols t ->
  rows = 1 \/ 2 <= cols ->
  np.broadcast_to (np.squeeze t) rows cols = Returned t.
Proof.
  intros [Hlen Ht] Hshape.
  destruct t as [|r1 [|r2 t']]; [cbn in Hlen; lia | |].
  - cbn in Hlen. inversion Ht as [|? ? Hr1 _]; subst.
    destruct r1 as [|x [|y r]]; [cbn in cols_pos; lia | reflexivity |].
    cbn [np.squeeze np.broadcast_to]. unfold np.stretch.
    rewrite Nat.eqb_refl. reflexivity.
  - assert (2 <= cols) as Hc by (cbn in Hlen; lia).
    inversion Ht as [|? ? Hr1 Ht']; subst.
    assert (np.squeeze (r1 :: r2 :: t') = np.Mat (r1 :: r2 :: t')) as ->.
    { destruct r1 as [|x [|y r]]; [cbn in Hc; lia | cbn in Hc; lia | reflexivity]. }
    cbn [np.broadcast_to].
    rewrite (mapM_Some_2 (np.stretch (length r1)) (r1 :: r2 :: t') (r1 :: r2 :: t')).
    + unfold np.stretch. rewrite Nat.eqb_refl. reflexivity.
    + apply Forall_Forall2_diag. eapply Forall_impl; [exact Ht|].
      intros r Hr. cbn in Hr. unfold np.stretch. rewrite Hr, Nat.eqb_refl. reflexivity.
Qed.

Lemma zeros_shape : has_shape rows cols N (np.zeros rows cols N).
Proof.
  unfold has_shape, np.zeros. cbn [np.dim0 np.dim1 np.dim2 np.cells].
  repeat split; [apply length_replicate|].
  apply Forall_replicate. split; [apply length_replicate|].
  apply Forall_replicate. apply length_replicate.
Qed.

Variable fs : filesystem.
Variable directory : string.
Variable t : nat -> list (list Q).

Hypothesis slice_files : forall i, i < N ->
  fs_numbers fs (slice_path directory i) = Some (t i) /\ is_table rows cols (t i).
Hypothesis not_one_column : rows = 1 \/ 2 <= cols.

(** The loop over the slice files: after the indices [s, s+n) every slice
    of these indices holds its file, and the earlier slices are kept. *)
Lemma load_slices_spec : forall n s D0,
  s + n <= N ->
  has_shape rows cols N D0 ->
  exists D,
    for_each (seq s n)
      (fun i D => X ← np.loadtxt fs (slice_path directory i); np.setitem_slice D i X) D0
    = Returned D /\
    has_shape rows cols N D /\
    (forall i, s <= i -> i < s + n -> np.getitem_slice D i = Returned (t i)) /\
    (forall i, i < s -> np.getitem_slice D i = np.getitem_slice D0 i).
Proof.
  induction n as [|n IH]; intros s D0 Hs HD0.
  - exists D0. cbn [seq for_each]. repeat split; [apply HD0.. | intros; lia].
  - destruct (slice_files s ltac:(lia)) as [Hfile Htab].
    destruct (setitem_slice_spec D0 s (np.squeeze (t s)) (t s) HD0 ltac:(lia)
                (broadcast_squeeze _ Htab not_one_column) Htab)
      as (D1 & Eset & HD1 & Hsame & Hother).
    destruct (IH (S s) D1 ltac:(lia) HD1) as (D & Efor & HD & Hslices & Hframe).
    exists D. cbn [seq for_each].
    rewrite (loadtxt_table _ _ _ Hfile Htab).
    change (match np.setitem_slice D0 s (np.squeeze (t s)) with
            | Returned D1' =>
                for_each (seq (S s) n)
                  (fun i D => X ← np.loadtxt fs (slice_path directory i);
                              np.setitem_slice D i X) D1'
            | Raised e => Raised e
            end = Returned D /\
            has_shape rows cols N D /\
            (forall i, s <= i -> i < s + S n -> np.getitem_slice D i = Returned (t i)) /\
            (forall i, i < s -> np.getitem_slice D i = np.getitem_slice D0 i)).
    rewrite Eset.
    split; [exact Efor|]. split; [exact HD|]. split.
    + intros i Hi Hi'. destruct (Nat.eq_dec i s) as [->|Hne].
      * rewrite Hframe by lia. exact Hsame.
      * apply Hslices; lia.
    + intros i Hi. rewrite Hframe by lia. apply Hother. lia.
Qed.

Variables l0v dlv wv sp : np.ndarray.

Hypothesis directory_exists : fs_exists fs directory = true.
Hypothesis l0_file : np.loadtxt fs (os_path.join directory "l0.txt") = Returned l0v.
Hypothesis dl_file : np.loadtxt fs (os_path.join directory "dl.txt") = Returned dlv.
Hypothesis w_file : np.loadtxt fs (os_path.join directory "w.txt") = Returned wv.
Hypothesis spectrum_file :
  np.loadtxt fs (os_path.join directory "spectrum.txt") = Returned sp.
Hypothesis l0_size : np.size l0v = cols.
Hypothesis dl_size : np.size dlv = rows.
Hypothesis w_size : np.size wv = N.

(** Reconstruction, away from single-column grids: when the slice files
    hold tables of [rows] lines of [cols] values and the grid is not a single column
    of several rows, the loader returns a grid of shape [(rows, cols, N)]
    whose slice [i] is the table of file [Delta_i]. *)
Lemma loaded_grid_holds_slice_files :
  exists D,
    load_calculated_data fs directory =
      ([], Returned (Some ({| l0 := l0v; dl := dlv; w := wv; Delta := D |}, sp))) /\
    has_shape rows cols N D /\
    (forall i, i < N -> np.getitem_slice D i = Returned (t i)).
Proof.
  destruct (load_slices_spec N 0 (np.zeros rows cols N) ltac:(lia) zeros_shape)
    as (D & Efor & HD & Hslices & _).
  exists D. split; [|split; [exact HD | intros i Hi; apply Hslices; lia]].
  unfold load_calculated_data. rewrite directory_exists. cbn [negb].
  unfold load_from. rewrite l0_file, dl_file, w_file, spectrum_file.
  cbn [mbind outcome_bind]. rewrite l0_size, dl_size, w_size.
  unfold range. rewrite Nat2Z.id.
  unfold mbind, outcome_bind in Efor |- *. rewrite Efor. reflexivity.
Qed.

End Reconstruction.

Example run1_reconstructed :
  exists D,
    load_calculated_data run1_fs "calculations/run1" =
      ([], Returned (Some ({| l0 := np.Vec [1; 2; 3]%Q; dl := np.Vec [10; 20]%Q;
                              w := np.Vec [0.5; 1.0]%Q; Delta := D |}, run1_spectrum))) /\
    has_shape 2 3 2 D /\
    (forall i, i < 2 -> np.getitem_slice D i = Returned (run1_slice i)).
Proof.
  apply loaded_grid_holds_slice_files; try reflexivity; try lia.
  intros i Hi. destruct i as [|[|i]]; [| | lia];
    (split; [reflexivity|]); (split; [reflexivity|]);
    (apply Forall_cons; split; [reflexivity|]);
    (apply Forall_cons; split; [reflexivity|]); apply Forall_nil_2.
Qed.

(** C2 on a calculation with one sample of [l0] and two of [dl]: the axis
    files have sizes 1, 2 and 2, each slice file is a table of two lines of
    one value, and the loader returns no grid: the slice read is squeezed to
    shape [(2,)], and its assignment to a slice of shape [(2, 1)] raises
    [ValueError]. *)
Theorem single_column_grid_not_loaded :
  (exists l0v dlv wv,
     np.loadtxt narrow_fs "narrow/l0.txt" = Returned l0v /\ np.size l0v = 1 /\
     np.loadtxt narrow_fs "narrow/dl.txt" = Returned dlv /\ np.size dlv = 2 /\
     np.loadtxt narrow_fs "narrow/w.txt" = Returned wv /\ np.size wv = 2) /\
  (forall i, i < 2 ->
     exists t, fs_numbers narrow_fs (slice_path "narrow" i) = Some t /\ is_table 2 1 t) /\
  np.loadtxt narrow_fs (slice_path "narrow" 0) = Returned (np.Vec [7; 8]%Q) /\
  np.setitem_slice (np.zeros 2 1 2) 0 (np.Vec [7; 8]%Q) = Raised ValueError /\
  load_calculated_data narrow_fs "narrow" = ([], Raised ValueError).
Proof.
  split; [|split; [|repeat split]].
  - eexists _, _, _. repeat split.
  - intros i Hi. destruct i as [|[|i]]; [| | lia].
    + exists [[7]; [8]]%Q. split; [reflexivity|]. split; [reflexivity|].
      apply Forall_cons; split; [reflexivity|].
      apply Forall_cons; split; [reflexivity|]. apply Forall_nil_2.
    + exists [[5]; [6]]%Q. split; [reflexivity|]. split; [reflexivity|].
      apply Forall_cons; split; [reflexivity|].
      apply Forall_cons; split; [reflexivity|]. apply Forall_nil_2.
Qed.

(** * Further properties of the loader *)

Section Broadcasting.

Lemma stretch_length {A : Type} (n : nat) (l l' : list A) :
  np.stretch n l = Some l' -> length l' = n.
Proof.
  unfold np.stretch. destruct (Nat.eqb_spec (length l) n) as [E|_].
  - intros [= <-]. exact E.
  - destruct l as [|x [|y l]]; try discriminate.
    intros [= <-]. apply length_replicate.
Qed.

Lemma stretch_Forall {A : Type} (P : A -> Prop) (n : nat) (l l' : list A) :
  np.stretch n l = Some l' -> Forall P l -> Forall P l'.
Proof.
  unfold np.stretch. destruct (length l =? n).
  - intros [= <-] H. exact H.
  - destruct l as [|x [|y l]]; try discriminate.
    intros [= <-] H. apply Forall_replicate. inversion H; assumption.
Qed.

(** Whatever is broadcast to [(rows, cols)] is a table of that shape. *)
Lemma broadcast_to_table (X : np.ndarray) (rows cols : nat) (M : list (list Q)) :
  np.broadcast_to X rows cols = Returned M -> is_table rows cols M.
Proof.
  unfold np.broadcast_to, is_table. destruct X as [x|xs|xss].
  - intros [= <-]. split; [apply length_replicate|].
    apply Forall_replicate, length_replicate.
  - destruct (np.stretch cols xs) as [r|] eqn:E; [|discriminate].
    intros [= <-]. split; [apply length_replicate|].
    apply Forall_replicate. exact (stretch_length _ _ _ E).
  - destruct (mapM (np.stretch cols) xss) as [rs|] eqn:E; [|discriminate].
    destruct (np.stretch rows rs) as [M'|] eqn:E'; [|discriminate].
    intros [= <-]. split; [exact (stretch_length _ _ _ E')|].
    apply (stretch_Forall _ _ _ _ E').
    apply mapM_Some_1 in E. clear E'.
    induction E as [|r r' xss rs Hr _ IH]; constructor;
      [exact (stretch_length _ _ _ Hr) | exact IH].
Qed.

Lemma broadcast_to_raised (X : np.ndarray) (rows cols : nat) (e : exn) :
  np.broadcast_to X rows cols = Raised e -> e = ValueError.
Proof.
  unfold np.broadcast_to. destruct X as [x|xs|xss].
  - discriminate.
  - destruct (np.stretch cols xs); [discriminate | congruence].
  - destruct (mapM (np.stretch cols) xss) as [rs|]; [|congruence].
    destruct (np.stretch rows rs); [discriminate | congruence].
Qed.

(** What a successful slice assignment has done. *)
Lemma setitem_slice_returned (rows cols N : nat) (D D' : np.ndarray3) (i : nat)
    (X : np.ndarray) :
  has_shape rows cols N D ->
  np.setitem_slice D i X = Returned D' ->
  i < N /\
  exists M,
    np.broadcast_to X rows cols = Returned M /\
    has_shape rows cols N D' /\
    np.getitem_slice D' i = Returned M /\
    (forall j, j <> i -> np.getitem_slice D' j = np.getitem_slice D j).
Proof.
  intros HD Hset. pose proof HD as (H0 & H1 & H2 & _).
  assert (i < N) as Hi.
  { unfold np.setitem_slice in Hset. rewrite H2 in Hset.
    destruct (Nat.ltb_spec i N); [assumption | discriminate]. }
  split; [exact Hi|].
  destruct (np.broadcast_to X rows cols) as [M|e] eqn:Hb.
  - exists M. split; [reflexivity|].
    destruct (setitem_slice_spec rows cols N D i X M HD Hi Hb (broadcast_to_table _ _ _ _ Hb))
      as (D1 & E1 & Hrest).
    rewrite E1 in Hset. injection Hset as <-. exact Hrest.
  - unfold np.setitem_slice in Hset.
    rewrite H2, (proj2 (Nat.ltb_lt i N) Hi), H0, H1, Hb in Hset. discriminate.
Qed.

End Broadcasting.

Section Loader.

Variable fs : filesystem.
Variable directory : string.

Lemma load_slices_cons (i : nat) (idx : list nat) (D0 : np.ndarray3) :
  load_slices fs directory (i :: idx) D0 =
  match np.loadtxt fs (slice_path directory i) with
  | Returned X =>
      match np.setitem_slice D0 i X with
      | Returned D1 => load_slices fs directory idx D1
      | Raised e => Raised e
      end
  | Raised e => Raised e
  end.
Proof.
  unfold load_slices. cbn [for_each]. unfold mbind at 1 2, outcome_bind.
  destruct (np.loadtxt fs (slice_path directory i)); reflexivity.
Qed.

Lemma load_from_unfold :
  load_from fs directory =
  match np.loadtxt fs (os_path.join directory "l0.txt") with
  | Raised e => Raised e
  | Returned l0v =>
    match np.loadtxt fs (os_path.join directory "dl.txt") with
    | Raised e => Raised e
    | Returned dlv =>
      match np.loadtxt fs (os_path.join directory "w.txt") with
      | Raised e => Raised e
      | Returned wv =>
        match np.loadtxt fs (os_path.join directory "spectrum.txt") with
        | Raised e => Raised e
        | Returned sp =>
          match load_slices fs directory (seq 0 (np.size wv))
                  (np.zeros (np.size dlv) (np.size l0v) (np.size wv)) with
          | Raised e => Raised e
          | Returned D =>
              Returned (Some ({| l0 := l0v; dl := dlv; w := wv; Delta := D |}, sp))
          end
        end
      end
    end
  end.
Proof.
  unfold load_from, load_slices, mbind, outcome_bind.
  destruct (np.loadtxt fs (os_path.join directory "l0.txt")) as [l0v|]; [|reflexivity].
  destruct (np.loadtxt fs (os_path.join directory "dl.txt")) as [dlv|]; [|reflexivity].
  destruct (np.loadtxt fs (os_path.join directory "w.txt")) as [wv|]; [|reflexivity].
  destruct (np.loadtxt fs (os_path.join directory "spectrum.txt")) as [sp|]; [|reflexivity].
  unfold range. rewrite Nat2Z.id. reflexivity.
Qed.

Variables rows cols N : nat.

(** When the loop returns, every slice of its indices has been read from its
    file and broadcast, and the other slices are those of the grid it
    started from. *)
Lemma load_slices_returned : forall n s D0 D,
  s + n <= N ->
  has_shape rows cols N D0 ->
  load_slices fs directory (seq s n) D0 = Returned D ->
  has_shape rows cols N D /\
  (forall i, s <= i -> i < s + n ->
     exists X M,
       np.loadtxt fs (slice_path directory i) = Returned X /\
       np.broadcast_to X rows cols = Returned M /\
       np.getitem_slice D i = Returned M) /\
  (forall i, i < s -> np.getitem_slice D i = np.getitem_slice D0 i).
Proof.
  induction n as [|n IH]; intros s D0 D Hs HD0 Hrun.
  - cbn in Hrun. injection Hrun as <-.
    split; [exact HD0|]. split; [intros; lia | reflexivity].
  - cbn [seq] in Hrun. rewrite load_slices_cons in Hrun.
    destruct (np.loadtxt fs (slice_path directory s)) as [X|] eqn:EX; [|discriminate].
    destruct (np.setitem_slice D0 s X) as [D1|] eqn:Eset; [|discriminate].
    destruct (setitem_slice_returned rows cols N D0 D1 s X HD0 Eset)
      as (_ & M & Hb & HD1 & Hsame & Hother).
    destruct (IH (S s) D1 D ltac:(lia) HD1 Hrun) as (HD & Hslices & Hframe).
    split; [exact HD|]. split.
    + intros i Hi Hi'. destruct (Nat.eq_dec i s) as [->|Hne].
      * exists X, M. rewrite Hframe by lia. auto.
      * apply Hslices; lia.
    + intros i Hi. rewrite Hframe by lia. apply Hother. lia.
Qed.

(** When every slice file of the indices can be read and broadcast, the loop
    returns. *)
Lemma load_slices_returns (X : nat -> np.ndarray) (M : nat -> list (list Q)) :
  (forall i, i < N ->
     np.loadtxt fs (slice_path directory i) = Returned (X i) /\
     np.broadcast_to (X i) rows cols = Returned (M i)) ->
  forall n s D0,
    s + n <= N ->
    has_shape rows cols N D0 ->
    exists D, load_slices fs directory (seq s n) D0 = Returned D.
Proof.
  intros Hfiles. induction n as [|n IH]; intros s D0 Hs HD0.
  - exists D0. reflexivity.
  - destruct (Hfiles s ltac:(lia)) as [EX Hb].
    destruct (setitem_slice_spec rows cols N D0 s (X s) (M s) HD0 ltac:(lia) Hb
                (broadcast_to_table _ _ _ _ Hb)) as (D1 & Eset & HD1 & _).
    destruct (IH (S s) D1 ltac:(lia) HD1) as (D & ED).
    exists D. cbn [seq]. rewrite load_slices_cons, EX, Eset. exact ED.
Qed.

End Loader.

Lemma zeros_has_shape (rows cols N : nat) : has_shape rows cols N (np.zeros rows cols N).
Proof.
  unfold has_shape, np.zeros. cbn [np.dim0 np.dim1 np.dim2 np.cells].
  repeat split; [apply length_replicate|].
  apply Forall_replicate. split; [apply length_replicate|].
  apply Forall_replicate. apply length_replicate.
Qed.

(** The loader returns [None] only when the directory is not found, and
    prints only then. *)
Lemma load_calculated_data_found (fs : filesystem) (directory : string)
    (out : list string) (r : calc_data * np.ndarray) :
  load_calculated_data fs directory = (out, Returned (Some r)) ->
  out = [] /\
  exists d,
    (d = directory \/ d = os_path.join "calculations" directory) /\
    fs_exists fs d = true /\
    load_from fs d = Returned (Some r).
Proof.
  unfold load_calculated_data.
  destruct (fs_exists fs directory) eqn:E1; cbn [negb].
  - intros [= <- H]. split; [reflexivity|]. exists directory. auto.
  - destruct (fs_exists fs (os_path.join "calculations" directory)) eqn:E2.
    + intros [= <- H]. split; [reflexivity|]. eexists. eauto.
    + discriminate.
Qed.

(** What a returned calculation says about the files of the directory read. *)
Lemma load_from_returned (fs : filesystem) (d : string)
    (cd : calc_data) (spectrum : np.ndarray) :
  load_from fs d = Returned (Some (cd, spectrum)) ->
  np.loadtxt fs (os_path.join d "l0.txt") = Returned (l0 cd) /\
  np.loadtxt fs (os_path.join d "dl.txt") = Returned (dl cd) /\
  np.loadtxt fs (os_path.join d "w.txt") = Returned (w cd) /\
  np.loadtxt fs (os_path.join d "spectrum.txt") = Returned spectrum /\
  has_shape (np.size (dl cd)) (np.size (l0 cd)) (np.size (w cd)) (Delta cd) /\
  (forall i, i < np.size (w cd) ->
     exists X M,
       np.loadtxt fs (slice_path d i) = Returned X /\
       np.broadcast_to X (np.size (dl cd)) (np.size (l0 cd)) = Returned M /\
       np.getitem_slice (Delta cd) i = Returned M).
Proof.
  intros Hfrom. rewrite load_from_unfold in Hfrom.
  destruct (np.loadtxt fs (os_path.join d "l0.txt")) as [l0v|]; [|discriminate].
  destruct (np.loadtxt fs (os_path.join d "dl.txt")) as [dlv|]; [|discriminate].
  destruct (np.loadtxt fs (os_path.join d "w.txt")) as [wv|]; [|discriminate].
  destruct (np.loadtxt fs (os_path.join d "spectrum.txt")) as [sp|]; [|discriminate].
  destruct (load_slices fs d (seq 0 (np.size wv)) _) as [D|] eqn:Eloop; [|discriminate].
  injection Hfrom as <- <-. cbn [l0 dl w Delta].
  destruct (load_slices_returned fs d (np.size dlv) (np.size l0v) (np.size wv)
              (np.size wv) 0 _ D (Nat.le_refl _)
              (zeros_has_shape (np.size dlv) (np.size l0v) (np.size wv)) Eloop)
    as (HD & Hslices & _).
  repeat split; try reflexivity; try apply HD.
  intros i Hi. apply Hslices; lia.
Qed.

(** When the files of a directory can be read and every slice broadcast, the
    body of the loader returns the grid of the broadcast slices. *)
Lemma load_from_returns (fs : filesystem) (d : string)
    (l0v dlv wv sp : np.ndarray) (X : nat -> np.ndarray) (M : nat -> list (list Q)) :
  np.loadtxt fs (os_path.join d "l0.txt") = Returned l0v ->
  np.loadtxt fs (os_path.join d "dl.txt") = Returned dlv ->
  np.loadtxt fs (os_path.join d "w.txt") = Returned wv ->
  np.loadtxt fs (os_path.join d "spectrum.txt") = Returned sp ->
  (forall i, i < np.size wv ->
     np.loadtxt fs (slice_path d i) = Returned (X i) /\
     np.broadcast_to (X i) (np.size dlv) (np.size l0v) = Returned (M i)) ->
  exists D,
    load_from fs d =
      Returned (Some ({| l0 := l0v; dl := dlv; w := wv; Delta := D |}, sp)) /\
    has_shape (np.size dlv) (np.size l0v) (np.size wv) D /\
    (forall i, i < np.size wv -> np.getitem_slice D i = Returned (M i)).
Proof.
  intros El0 Edl Ew Esp Hfiles.
  destruct (load_slices_returns fs d _ _ _ X M Hfiles (np.size wv) 0 _ (Nat.le_refl _)
              (zeros_has_shape (np.size dlv) (np.size l0v) (np.size wv))) as [D ED].
  destruct (load_slices_returned fs d _ _ _ _ 0 _ D (Nat.le_refl _)
              (zeros_has_shape (np.size dlv) (np.size l0v) (np.size wv)) ED)
    as (HD & Hslices & _).
  exists D. rewrite load_from_unfold, El0, Edl, Ew, Esp, ED.
  split; [reflexivity|]. split; [exact HD|].
  intros i Hi. destruct (Hslices i ltac:(lia) ltac:(lia)) as (X' & M' & EX & EM & Hget).
  destruct (Hfiles i Hi) as [EX' EM']. congruence.
Qed.

Lemma load_calculated_data_exists (fs : filesystem) (directory : string) :
  fs_exists fs directory = true ->
  load_calculated_data fs directory = ([], load_from fs directory).
Proof. intros H. unfold load_calculated_data. rewrite H. reflexivity. Qed.

(** X1: soundness of the loader.  Whenever it returns a calculation, nothing
    was printed, the directory read is the one given or the one under
    [calculations], the axes and the spectrum are the arrays read from their
    files, the grid has shape [(dl.size, l0.size, w.size)], and every slice of
    the grid is the array read from its slice file, broadcast to
    [(dl.size, l0.size)]. *)
Theorem loaded_calculation_comes_from_files (fs : filesystem) (directory : string)
    (out : list string) (cd : calc_data) (spectrum : np.ndarray) :
  load_calculated_data fs directory = (out, Returned (Some (cd, spectrum))) ->
  out = [] /\
  exists d,
    (d = directory \/ d = os_path.join "calculations" directory) /\
    fs_exists fs d = true /\
    np.loadtxt fs (os_path.join d "l0.txt") = Returned (l0 cd) /\
    np.loadtxt fs (os_path.join d "dl.txt") = Returned (dl cd) /\
    np.loadtxt fs (os_path.join d "w.txt") = Returned (w cd) /\
    np.loadtxt fs (os_path.join d "spectrum.txt") = Returned spectrum /\
    has_shape (np.size (dl cd)) (np.size (l0 cd)) (np.size (w cd)) (Delta cd) /\
    (forall i, i < np.size (w cd) ->
       exists X M,
         np.loadtxt fs (slice_path d i) = Returned X /\
         np.broadcast_to X (np.size (dl cd)) (np.size (l0 cd)) = Returned M /\
         np.getitem_slice (Delta cd) i = Returned M).
Proof.
  intros Hload.
  destruct (load_calculated_data_found _ _ _ _ Hload) as (Hout & d & Hd & Hex & Hfrom).
  split; [exact Hout|]. exists d. split; [exact Hd|]. split; [exact Hex|].
  exact (load_from_returned _ _ _ _ Hfrom).
Qed.

Lemma loaded_calculation_comes_from_files_witness :
  ([] : list string) = [] /\
  exists d,
    (d = "run1"%string \/ d = os_path.join "calculations" "run1") /\
    fs_exists run1_fs d = true /\
    np.loadtxt run1_fs (os_path.join d "l0.txt") = Returned (np.Vec [1; 2; 3]%Q) /\
    np.loadtxt run1_fs (os_path.join d "dl.txt") = Returned (np.Vec [10; 20]%Q) /\
    np.loadtxt run1_fs (os_path.join d "w.txt") = Returned (np.Vec [0.5; 1.0]%Q) /\
    np.loadtxt run1_fs (os_path.join d "spectrum.txt") = Returned run1_spectrum /\
    has_shape 2 3 2 run1_Delta /\
    (forall i, i < 2 ->
       exists X M,
         np.loadtxt run1_fs (slice_path d i) = Returned X /\
         np.broadcast_to X 2 3 = Returned M /\
         np.getitem_slice run1_Delta i = Returned M).
Proof.
  apply (loaded_calculation_comes_from_files run1_fs "run1" []
           {| l0 := np.Vec [1; 2; 3]%Q; dl := np.Vec [10; 20]%Q;
              w := np.Vec [0.5; 1.0]%Q; Delta := run1_Delta |} run1_spectrum).
  vm_compute. reflexivity.
Defined.

(** X2: completeness of the loader.  For a directory that exists, when the
    three axis files and the spectrum file can be read and every slice file
    [Delta_i], [i < w.size], can be read and broadcast to
    [(dl.size, l0.size)], the loader prints nothing and returns the arrays
    read with a grid of shape [(dl.size, l0.size, w.size)] whose slice [i] is
    the broadcast array of file [Delta_i]. *)
Theorem loader_returns_broadcast_slices (fs : filesystem) (directory : string)
    (l0v dlv wv sp : np.ndarray) (X : nat -> np.ndarray) (M : nat -> list (list Q)) :
  fs_exists fs directory = true ->
  np.loadtxt fs (os_path.join directory "l0.txt") = Returned l0v ->
  np.loadtxt fs (os_path.join directory "dl.txt") = Returned dlv ->
  np.loadtxt fs (os_path.join directory "w.txt") = Returned wv ->
  np.loadtxt fs (os_path.join directory "spectrum.txt") = Returned sp ->
  (forall i, i < np.size wv ->
     np.loadtxt fs (slice_path directory i) = Returned (X i) /\
     np.broadcast_to (X i) (np.size dlv) (np.size l0v) = Returned (M i)) ->
  exists D,
    load_calculated_data fs directory =
      ([], Returned (Some ({| l0 := l0v; dl := dlv; w := wv; Delta := D |}, sp))) /\
    has_shape (np.size dlv) (np.size l0v) (np.size wv) D /\
    (forall i, i < np.size wv -> np.getitem_slice D i = Returned (M i)).
Proof.
  intros Hex El0 Edl Ew Esp Hfiles.
  destruct (load_from_returns fs directory l0v dlv wv sp X M El0 Edl Ew Esp Hfiles)
    as (D & ED & HD).
  exists D. rewrite (load_calculated_data_exists _ _ Hex), ED. split; [reflexivity | exact HD].
Qed.

Lemma loader_returns_broadcast_slices_witness :
  exists D,
    load_calculated_data run1_fs "calculations/run1" =
      ([], Returned (Some ({| l0 := np.Vec [1; 2; 3]%Q; dl := np.Vec [10; 20]%Q;
                              w := np.Vec [0.5; 1.0]%Q; Delta := D |}, run1_spectrum))) /\
    has_shape 2 3 2 D /\
    (forall i, i < 2 -> np.getitem_slice D i = Returned (run1_slice i)).
Proof.
  apply (loader_returns_broadcast_slices run1_fs "calculations/run1"
           (np.Vec [1; 2; 3]%Q) (np.Vec [10; 20]%Q) (np.Vec [0.5; 1.0]%Q) run1_spectrum
           (fun i => np.Mat (run1_slice i)) run1_slice);
    try reflexivity.
  intros i Hi. change (np.size (np.Vec [0.5; 1.0]%Q)) with 2 in Hi.
  destruct i as [|[|i]]; [split; reflexivity | split; reflexivity | lia].
Defined.

(** A file of one line of values is read as a 0-d array or a vector, and
    broadcasts to any number of rows of that line. *)
Lemma loadtxt_one_line (fs : filesystem) (p : string) (r : list Q) (rows : nat) :
  fs_numbers fs p = Some [r] ->
  r <> [] ->
  exists X,
    np.loadtxt fs p = Returned X /\
    np.broadcast_to X rows (length r) = Returned (replicate rows r).
Proof.
  intros Hp Hr. unfold np.loadtxt. rewrite Hp.
  destruct r as [|x r]; [congruence|]. cbn [List.filter np.is_empty_row negb forallb].
  rewrite Nat.eqb_refl. cbn [andb].
  destruct r as [|y r].
  - exists (np.Scalar x). split; reflexivity.
  - exists (np.Vec (x :: y :: r)). split; [reflexivity|].
    cbn [np.broadcast_to]. unfold np.stretch. rewrite Nat.eqb_refl. reflexivity.
Qed.

(** X3: the loader does not check the number of lines of a slice file.  For
    a directory that exists and whose axis and spectrum files can be read,
    when every slice file holds a single line of [l0.size] values the loader
    returns, whatever [dl.size] is, a grid in which every row of slice [i] is
    the line of file [Delta_i]. *)
Theorem one_line_slices_fill_every_row (fs : filesystem) (directory : string)
    (l0v dlv wv sp : np.ndarray) (r : nat -> list Q) :
  fs_exists fs directory = true ->
  np.loadtxt fs (os_path.join directory "l0.txt") = Returned l0v ->
  np.loadtxt fs (os_path.join directory "dl.txt") = Returned dlv ->
  np.loadtxt fs (os_path.join directory "w.txt") = Returned wv ->
  np.loadtxt fs (os_path.join directory "spectrum.txt") = Returned sp ->
  1 <= np.size l0v ->
  (forall i, i < np.size wv ->
     fs_numbers fs (slice_path directory i) = Some [r i] /\
     length (r i) = np.size l0v) ->
  exists D,
    load_calculated_data fs directory =
      ([], Returned (Some ({| l0 := l0v; dl := dlv; w := wv; Delta := D |}, sp))) /\
    has_shape (np.size dlv) (np.size l0v) (np.size wv) D /\
    (forall i, i < np.size wv ->
       np.getitem_slice D i = Returned (replicate (np.size dlv) (r i))).
Proof.
  intros Hex El0 Edl Ew Esp Hcols Hfiles.
  assert (forall i, i < np.size wv ->
            exists X,
              np.loadtxt fs (slice_path directory i) = Returned X /\
              np.broadcast_to X (np.size dlv) (np.size l0v)
                = Returned (replicate (np.size dlv) (r i))) as Hone.
  { intros i Hi. destruct (Hfiles i Hi) as [Hp Hlen]. rewrite <- Hlen.
    apply loadtxt_one_line; [exact Hp|]. intros E. rewrite E in Hlen. cbn in Hlen. lia. }
  destruct (load_from_returns fs directory l0v dlv wv sp
              (fun i => match np.loadtxt fs (slice_path directory i) with
                        | Returned X => X
                        | Raised _ => np.Vec []
                        end)
              (fun i => replicate (np.size dlv) (r i)) El0 Edl Ew Esp) as (D & ED & HD).
  { intros i Hi. destruct (Hone i Hi) as (X & EX & Hb). rewrite EX. auto. }
  exists D. rewrite (load_calculated_data_exists _ _ Hex), ED. split; [reflexivity | exact HD].
Qed.

Lemma one_line_slices_fill_every_row_witness :
  exists D,
    load_calculated_data one_line_fs "flat" =
      ([], Returned (Some ({| l0 := np.Vec [1; 2]%Q; dl := np.Vec [10; 20; 30]%Q;
                              w := np.Vec [0.5; 1.0]%Q; Delta := D |},
                           np.Mat [[400; 2]; [500; 4]]%Q))) /\
    has_shape 3 2 2 D /\
    (forall i, i < 2 -> np.getitem_slice D i = Returned (replicate 3 (one_line_row i))).
Proof.
  apply (one_line_slices_fill_every_row one_line_fs "flat"
           (np.Vec [1; 2]%Q) (np.Vec [10; 20; 30]%Q) (np.Vec [0.5; 1.0]%Q)
           (np.Mat [[400; 2]; [500; 4]]%Q) one_line_row);
    try reflexivity.
  - cbn. lia.
  - intros i Hi. change (np.size (np.Vec [0.5; 1.0]%Q)) with 2 in Hi.
    destruct i as [|[|i]]; [split; reflexivity | split; reflexivity | lia].
Defined.

(** X4: the loader is all or nothing.  For a directory that exists, when an
    axis file, the spectrum file or a slice file [Delta_i] with [i < w.size]
    cannot be loaded, the loader raises and returns no grid. *)
Theorem unreadable_file_no_grid (fs : filesystem) (directory : string) :
  fs_exists fs directory = true ->
  (exists e, np.loadtxt fs (os_path.join directory "l0.txt") = Raised e) \/
  (exists e, np.loadtxt fs (os_path.join directory "dl.txt") = Raised e) \/
  (exists e, np.loadtxt fs (os_path.join directory "w.txt") = Raised e) \/
  (exists e, np.loadtxt fs (os_path.join directory "spectrum.txt") = Raised e) \/
  (exists wv i e,
     np.loadtxt fs (os_path.join directory "w.txt") = Returned wv /\
     i < np.size wv /\
     np.loadtxt fs (slice_path directory i) = Raised e) ->
  exists e, load_calculated_data fs directory = ([], Raised e).
Proof.
  intros Hex Hbad. rewrite (load_calculated_data_exists _ _ Hex).
  destruct (load_from fs directory) as [[[cd sp]|]|e] eqn:E.
  - exfalso.
    destruct (load_from_returned _ _ _ _ E) as (El0 & Edl & Ew & Esp & _ & Hslices).
    destruct Hbad as [[e H]|[[e H]|[[e H]|[[e H]|(wv & i & e & Hw & Hi & H)]]]];
      try congruence.
    assert (wv = w cd) as -> by congruence.
    destruct (Hslices i Hi) as (X & M & EX & _). congruence.
  - exfalso. exact (load_from_not_None _ _ E).
  - exists e. reflexivity.
Qed.

Lemma unreadable_file_no_grid_witness :
  exists e, load_calculated_data bare_fs "calculations/bare" = ([], Raised e).
Proof.
  apply (unreadable_file_no_grid bare_fs "calculations/bare").
  - reflexivity.
  - left. exists OSError. reflexivity.
Defined.

Lemma loadtxt_same_file (fs1 fs2 : filesystem) (p : string) :
  fs_numbers fs1 p = fs_numbers fs2 p -> np.loadtxt fs1 p = np.loadtxt fs2 p.
Proof. intros H. unfold np.loadtxt. rewrite H. reflexivity. Qed.

Lemma load_slices_same_files (fs1 fs2 : filesystem) (d : string) (idx : list nat) :
  Forall (fun i => fs_numbers fs1 (slice_path d i) = fs_numbers fs2 (slice_path d i)) idx ->
  forall D0, load_slices fs1 d idx D0 = load_slices fs2 d idx D0.
Proof.
  induction 1 as [|i idx Hi _ IH]; intros D0; [reflexivity|].
  rewrite !load_slices_cons, (loadtxt_same_file _ _ _ Hi).
  destruct (np.loadtxt fs2 (slice_path d i)) as [X|]; [|reflexivity].
  destruct (np.setitem_slice D0 i X); [apply IH | reflexivity].
Qed.

Lemma load_from_same_files (fs1 fs2 : filesystem) (d : string) :
  same_calculation_files fs1 fs2 d -> load_from fs1 d = load_from fs2 d.
Proof.
  intros (Hl0 & Hdl & Hw & Hsp & Hslices).
  rewrite !load_from_unfold.
  rewrite <- (loadtxt_same_file _ _ _ Hl0), <- (loadtxt_same_file _ _ _ Hdl),
    <- (loadtxt_same_file _ _ _ Hsp).
  pose proof (loadtxt_same_file _ _ _ Hw) as Ew. rewrite <- Ew.
  destruct (np.loadtxt fs1 (os_path.join d "l0.txt")) as [l0v|]; [|reflexivity].
  destruct (np.loadtxt fs1 (os_path.join d "dl.txt")) as [dlv|]; [|reflexivity].
  destruct (np.loadtxt fs1 (os_path.join d "w.txt")) as [wv|] eqn:E; [|reflexivity].
  destruct (np.loadtxt fs1 (os_path.join d "spectrum.txt")) as [sp|]; [|reflexivity].
  rewrite (load_slices_same_files fs1 fs2 d (seq 0 (np.size wv))); [reflexivity|].
  apply Forall_forall. intros i Hi. apply list_elem_of_In, in_seq in Hi.
  apply (Hslices wv i eq_refl). lia.
Qed.

(** X5: the loader reads nothing but the calculation files.  Two file systems
    in which the given directory and the one under [calculations] exist alike
    and hold the same axis files, spectrum file and slice files [Delta_i],
    [i < w.size], give the same printed lines and the same outcome, whatever
    else they hold. *)
Theorem loader_reads_only_calculation_files (fs1 fs2 : filesystem) (directory : string) :
  fs_exists fs1 directory = fs_exists fs2 directory ->
  fs_exists fs1 (os_path.join "calculations" directory)
    = fs_exists fs2 (os_path.join "calculations" directory) ->
  same_calculation_files fs1 fs2 directory ->
  same_calculation_files fs1 fs2 (os_path.join "calculations" directory) ->
  load_calculated_data fs1 directory = load_calculated_data fs2 directory.
Proof.
  intros Hex Hex' Hsame Hsame'. unfold load_calculated_data.
  rewrite <- Hex, <- Hex', (load_from_same_files _ _ _ Hsame),
    (load_from_same_files _ _ _ Hsame').
  reflexivity.
Qed.

Lemma loader_reads_only_calculation_files_witness :
  fs_numbers run1_fs "calculations/run1/Delta_2.txt" = None /\
  fs_numbers run1_fs_more "calculations/run1/Delta_2.txt" = Some [[0; 0; 0]; [0; 0; 0]]%Q /\
  load_calculated_data run1_fs "run1" = load_calculated_data run1_fs_more "run1".
Proof.
  split; [reflexivity|]. split; [reflexivity|].
  apply (loader_reads_only_calculation_files run1_fs run1_fs_more "run1").
  - reflexivity.
  - reflexivity.
  - do 4 (split; [reflexivity|]). intros wv i Hw. vm_compute in Hw. discriminate.
  - do 4 (split; [reflexivity|]). intros wv i Hw Hi. vm_compute in Hw. injection Hw as <-.
    change (np.size (np.Vec [0.5; 1.0]%Q)) with 2 in Hi.
    destruct i as [|[|i]]; [reflexivity | reflexivity | lia].
Defined.

(** ** Independence of the slice assignments *)

Lemma insert_row_commute (i j : nat) (row : list (list Q)) : forall rx ry : list Q,
  i <> j ->
  zip_with (fun cell y => <[j:=y]> cell) (zip_with (fun cell x => <[i:=x]> cell) row rx) ry
  = zip_with (fun cell x => <[i:=x]> cell) (zip_with (fun cell y => <[j:=y]> cell) row ry) rx.
Proof.
  induction row as [|cell row IH]; intros rx ry Hij; [reflexivity|].
  destruct rx as [|x rx], ry as [|y ry]; try reflexivity.
  cbn [zip_with]. f_equal; [apply list_insert_insert_ne; congruence | apply IH; exact Hij].
Qed.

Lemma insert_cells_commute (i j : nat) (cells : list (list (list Q))) :
  forall MX MY : list (list Q),
  i <> j ->
  zip_with (zip_with (fun cell y => <[j:=y]> cell))
    (zip_with (zip_with (fun cell x => <[i:=x]> cell)) cells MX) MY
  = zip_with (zip_with (fun cell x => <[i:=x]> cell))
      (zip_with (zip_with (fun cell y => <[j:=y]> cell)) cells MY) MX.
Proof.
  induction cells as [|row cells IH]; intros MX MY Hij; [reflexivity|].
  destruct MX as [|rx MX], MY as [|ry MY]; try reflexivity.
  cbn [zip_with]. f_equal; [apply insert_row_commute; exact Hij | apply IH; exact Hij].
Qed.

(** X6: the slices are independent.  Assigning two different slices of a
    grid gives the same grid, or raises the same exception, in either
    order. *)
Theorem slice_assignments_commute (D : np.ndarray3) (i j : nat) (X Y : np.ndarray) :
  i <> j ->
  i < np.dim2 D ->
  j < np.dim2 D ->
  (D1 ← np.setitem_slice D i X; np.setitem_slice D1 j Y)
  = (D1 ← np.setitem_slice D j Y; np.setitem_slice D1 i X).
Proof.
  intros Hij Hi Hj. unfold np.setitem_slice, mbind, outcome_bind.
  rewrite (proj2 (Nat.ltb_lt _ _) Hi), (proj2 (Nat.ltb_lt _ _) Hj).
  destruct (np.broadcast_to X (np.dim0 D) (np.dim1 D)) as [MX|ex] eqn:EX;
    destruct (np.broadcast_to Y (np.dim0 D) (np.dim1 D)) as [MY|ey] eqn:EY;
    cbn [np.dim0 np.dim1 np.dim2 np.cells];
    rewrite ?(proj2 (Nat.ltb_lt _ _) Hi), ?(proj2 (Nat.ltb_lt _ _) Hj), ?EX, ?EY.
  - do 2 f_equal. apply insert_cells_commute. exact Hij.
  - reflexivity.
  - reflexivity.
  - rewrite (broadcast_to_raised _ _ _ _ EX), (broadcast_to_raised _ _ _ _ EY). reflexivity.
Qed.

Lemma slice_assignments_commute_witness :
  (D1 ← np.setitem_slice (np.zeros 2 3 2) 0 (np.Mat (run1_slice 0));
   np.setitem_slice D1 1 (np.Mat (run1_slice 1)))
  = (D1 ← np.setitem_slice (np.zeros 2 3 2) 1 (np.Mat (run1_slice 1));
     np.setitem_slice D1 0 (np.Mat (run1_slice 0))).
Proof.
  apply (slice_assignments_commute (np.zeros 2 3 2) 0 1); cbn; lia.
Defined.

(** * Further properties of the display script *)

(** ** Selection of the slice *)

Lemma lookup_nth_Q (ws : list Q) (i : nat) (x : Q) :
  ws !! i = Some x -> nth i ws 0%Q = x /\ i < length ws.
Proof.
  intros H. split; [apply nth_lookup_Some; exact H | eapply lookup_lt_Some; exact H].
Qed.

Lemma select_within_range (ws : list Q) (hi v : Q) :
  strictly_ascending ws = true ->
  np.amax ws = Returned hi ->
  (v <= hi)%Q ->
  exists wi x,
    select_slice (np.Vec ws) (Some v) = Returned (wi, np.Scalar x) /\
    ws !! wi = Some x /\
    (v <= x)%Q /\
    (forall j y, j < wi -> ws !! j = Some y -> (y < v)%Q).
Proof.
  intros Hs Hhi Hv.
  assert (ws <> []) as Hne by (intros ->; discriminate).
  assert (0 < length ws) as Hlen by (destruct ws; [congruence | cbn; lia]).
  rewrite (amax_ascending ws Hs Hne) in Hhi.
  assert (nth (length ws - 1) ws 0%Q = hi) as Ehi by congruence. clear Hhi.
  destruct (searchsorted_splits ws v Hs) as (r & Er & Hr & Hb & Ha).
  assert (r < length ws) as Hrlt.
  { destruct (Nat.lt_ge_cases r (length ws)) as [|Hge]; [assumption|]. exfalso.
    apply (Qlt_irrefl v). eapply Qle_lt_trans; [exact Hv|].
    rewrite <- Ehi. apply Hb. lia. }
  destruct (nth_lookup_or_length ws r 0%Q) as [Hlook|]; [|lia].
  exists r, (nth r ws 0%Q). rewrite (select_slice_given _ _ _ Er), Hlook.
  split; [reflexivity|]. split; [reflexivity|]. split; [apply Ha; lia|].
  intros j y Hj Hy. destruct (lookup_nth_Q _ _ _ Hy) as [<- _]. apply Hb. exact Hj.
Qed.

Lemma select_exact_sample (ws : list Q) (i : nat) (x : Q) :
  strictly_ascending ws = true ->
  ws !! i = Some x ->
  select_slice (np.Vec ws) (Some x) = Returned (i, np.Scalar x).
Proof.
  intros Hs Hx. destruct (lookup_nth_Q _ _ _ Hx) as [Ex Hi].
  destruct (searchsorted_splits ws x Hs) as (r & Er & Hr & Hb & Ha).
  assert (r = i) as ->.
  { destruct (Nat.lt_trichotomy r i) as [Hlt | [Heq | Hgt]]; [exfalso | exact Heq | exfalso].
    - specialize (Ha r (Nat.le_refl _) ltac:(lia)).
      apply (Qlt_irrefl x). eapply Qle_lt_trans; [exact Ha|].
      rewrite <- Ex. apply strictly_ascending_nth; [exact Hs | exact Hlt | exact Hi].
    - apply (Qlt_irrefl x). rewrite <- Ex at 1. apply Hb. exact Hgt. }
  rewrite (select_slice_given _ _ _ Er), Hx. reflexivity.
Qed.

(** ** Arrays that the display script cannot handle *)

Lemma filter_nonempty_rows (lines : list (list Q)) :
  Forall (fun r => r <> []) (List.filter (fun r => negb (np.is_empty_row r)) lines).
Proof.
  apply Forall_forall. intros r Hr. apply list_elem_of_In, filter_In in Hr as [_ Hr].
  destruct r; [discriminate | congruence].
Qed.

Lemma concat_singles_length (rows : list (list Q)) :
  forallb np.is_single rows = true -> length (concat rows) = length rows.
Proof.
  induction rows as [|r rows IH]; [reflexivity|]. cbn [forallb].
  intros H. apply andb_prop in H as [Hr Hrows].
  destruct r as [|x [|y r]]; try discriminate. cbn. rewrite (IH Hrows). reflexivity.
Qed.

Lemma squeeze_several (r0 r1 : list Q) (rows : list (list Q)) :
  np.squeeze (r0 :: r1 :: rows) =
  if forallb np.is_single (r0 :: r1 :: rows)
  then np.Vec (concat (r0 :: r1 :: rows)) else np.Mat (r0 :: r1 :: rows).
Proof. destruct r0 as [|x [|y r0]]; reflexivity. Qed.

(** An array read from a file has size one only when it is 0-d. *)
Lemma loadtxt_size_one (fs : filesystem) (p : string) (a : np.ndarray) :
  np.loadtxt fs p = Returned a -> np.size a = 1 -> exists x, a = np.Scalar x.
Proof.
  unfold np.loadtxt. destruct (fs_numbers fs p) as [lines|]; [|discriminate].
  pose proof (filter_nonempty_rows lines) as Hne.
  destruct (List.filter _ lines) as [|r0 rows]; [intros [= <-]; discriminate|].
  destruct (forallb _ (r0 :: rows)); [|discriminate].
  intros E. assert (a = np.squeeze (r0 :: rows)) as -> by congruence. clear E.
  destruct rows as [|r1 rows].
  - destruct r0 as [|x [|y r0]]; cbn; [discriminate | eauto | discriminate].
  - rewrite squeeze_several.
    destruct (forallb np.is_single (r0 :: r1 :: rows)) eqn:E.
    + cbn [np.size]. rewrite (concat_singles_length _ E). discriminate.
    + cbn [np.size np.ncols length]. inversion Hne as [|? ? Hr0 _]; subst.
      destruct r0 as [|x r0]; [congruence|]. cbn [length]. lia.
Qed.

Lemma select_slice_0d (x : Q) (width : option Q) :
  select_slice (np.Scalar x) width = Raised ValueError.
Proof. destruct width; reflexivity. Qed.

(** X9: a calculation with a single sample of [w] is loaded but cannot be
    displayed.  Whenever the loader returns a calculation whose [w] has size
    one, [w] is a 0-d array and the selection of the slice raises
    [ValueError], whatever width is requested. *)
Theorem one_sample_axis_not_displayed (fs : filesystem) (directory : string)
    (out : list string) (cd : calc_data) (spectrum : np.ndarray) (width : option Q) :
  load_calculated_data fs directory = (out, Returned (Some (cd, spectrum))) ->
  np.size (w cd) = 1 ->
  (exists x, w cd = np.Scalar x) /\
  select_slice (w cd) width = Raised ValueError.
Proof.
  intros Hload Hsize.
  destruct (load_calculated_data_found _ _ _ _ Hload) as (_ & d & _ & _ & Hfrom).
  destruct (load_from_returned _ _ _ _ Hfrom) as (_ & _ & Ew & _).
  destruct (loadtxt_size_one _ _ _ Ew Hsize) as [x Ex].
  split; [eauto|]. rewrite Ex. apply select_slice_0d.
Qed.

Lemma one_sample_axis_not_displayed_witness :
  (exists x, w one_sample_calc = np.Scalar x) /\
  select_slice (w one_sample_calc) None = Raised ValueError.
Proof.
  apply (one_sample_axis_not_displayed one_sample_fs "one" [] one_sample_calc
           (np.Mat [[400; 2]; [500; 4]]%Q) None).
  - vm_compute. reflexivity.
  - reflexivity.
Defined.

(** X10: a spectrum file of a single line cannot be displayed: it is read as
    an array of fewer than two dimensions, and taking its intensity column
    raises [IndexError]. *)
Theorem one_line_spectrum_not_displayed (fs : filesystem) (p : string) (r : list Q) :
  fs_numbers fs p = Some [r] ->
  exists a,
    np.loadtxt fs p = Returned a /\
    normalized_spectrum a = Raised IndexError.
Proof.
  intros Hp. unfold np.loadtxt. rewrite Hp.
  destruct r as [|x [|y r]].
  - exists (np.Vec []). split; reflexivity.
  - exists (np.Scalar x). split; reflexivity.
  - exists (np.Vec (x :: y :: r)). cbn [List.filter np.is_empty_row negb forallb].
    rewrite Nat.eqb_refl. split; reflexivity.
Qed.

Lemma one_line_spectrum_not_displayed_witness :
  exists a,
    np.loadtxt (fs_of [] [("spectrum.txt", [[400; 2]]%Q)]%string) "spectrum.txt"
      = Returned a /\
    normalized_spectrum a = Raised IndexError.
Proof.
  apply (one_line_spectrum_not_displayed
           (fs_of [] [("spectrum.txt", [[400; 2]]%Q)]%string) "spectrum.txt" [400; 2]%Q).
  reflexivity.
Defined.

(** ** Peak markers *)

Lemma plot_each_raised (f : nat -> outcome marker) :
  (forall j e, f j = Raised e -> e = IndexError) ->
  forall n s j,
    s <= j -> j < s + n ->
    (exists e, f j = Raised e) ->
    exists k drawn,
      s <= k /\ k <= j /\
      plot_each f (seq s n) = (drawn, Raised IndexError) /\
      collect f (seq s (k - s)) = Returned drawn /\
      f k = Raised IndexError.
Proof.
  intros Hexn. induction n as [|n IH]; intros s j Hs Hj Hbad; [lia|].
  cbn [seq plot_each]. destruct (f s) as [m|e] eqn:Es.
  - assert (s <> j) as Hne by (intros ->; destruct Hbad; congruence).
    destruct (IH (S s) j ltac:(lia) ltac:(lia) Hbad) as (k & drawn & Hk & Hkj & Ep & Ec & Ek).
    exists k, (m :: drawn). rewrite Ep.
    split; [lia|]. split; [exact Hkj|]. split; [reflexivity|]. split; [|exact Ek].
    replace (k - s) with (S (k - S s)) by lia. cbn [seq].
    rewrite collect_cons, Es, Ec. reflexivity.
  - pose proof (Hexn _ _ Es) as He. subst e. exists s, [].
    split; [lia|]. split; [exact Hs|]. split; [reflexivity|].
    rewrite Nat.sub_diag. split; [reflexivity | exact Es].
Qed.

(** X12: requesting more peaks than were computed is an error of the marker
    loop.  When [npeaks] exceeds the number of peak tables, the loop raises
    [IndexError] at a peak [k] that is at most the number of tables, after
    it has drawn the markers of the peaks before [k] (the markers that the
    loop for [k] peaks returns), which stay on the axes. *)
Theorem more_peaks_than_computed (peak : list peak_table) (wi : nat) (npeaks : Z) :
  (Z.of_nat (length peak) < npeaks)%Z ->
  exists k drawn,
    k <= length peak /\
    plot_peaks peak wi npeaks = (drawn, Raised IndexError) /\
    peak_markers peak wi (Z.of_nat k) = Returned drawn /\
    marker_of peak wi k = Raised IndexError.
Proof.
  intros Hn.
  destruct (plot_each_raised (marker_of peak wi) (marker_of_raised peak wi)
              (Z.to_nat npeaks) 0 (length peak)) as (k & drawn & _ & Hk & Ep & Ec & Ek);
    [lia | lia | |].
  - exists IndexError. unfold marker_of, peak_entry, mbind, outcome_bind, list_getitem.
    rewrite (lookup_ge_None_2 peak (length peak)); [reflexivity | lia].
  - exists k, drawn. split; [exact Hk|]. split; [exact Ep|]. split; [|exact Ek].
    rewrite peak_markers_collect. unfold range. rewrite Nat2Z.id.
    rewrite Nat.sub_0_r in Ec. exact Ec.
Qed.

Lemma more_peaks_than_computed_witness :
  exists k drawn,
    k <= 2 /\
    plot_peaks [[[0; 1; 2]]; [[0; 3; 4]]]%Q 0 3 = (drawn, Raised IndexError) /\
    peak_markers [[[0; 1; 2]]; [[0; 3; 4]]]%Q 0 (Z.of_nat k) = Returned drawn /\
    marker_of [[[0; 1; 2]]; [[0; 3; 4]]]%Q 0 k = Raised IndexError.
Proof.
  apply (more_peaks_than_computed [[[0; 1; 2]]; [[0; 3; 4]]]%Q 0 3). cbn. lia.
Defined.

(** X13: the reference curve fits the panel.  When the intensity column of
    the spectrum holds finite values, with a positive maximum and none
    negative, every normalised intensity lies between the lower y-limit 0 and
    1, below the upper y-limit 1.25, and 1 is reached. *)
Theorem normalized_spectrum_within_ylim (spectrum : np.ndarray) (col : list Q) (m : Q) :
  np.getitem_column spectrum 1 = Returned col ->
  np.amax col = Returned m ->
  (0 < m)%Q ->
  Forall (fun x => (0 <= x)%Q) col ->
  exists ys,
    normalized_spectrum spectrum = Returned (map Fin ys) /\
    Forall (fun y => (fst ylim <= y)%Q /\ (y <= 1)%Q /\ (y < snd ylim)%Q) ys /\
    Exists (fun y => (y == 1)%Q) ys.
Proof.
  intros Hcol Hmax Hm Hpos.
  assert (~ (m == 0)%Q) as Hm0.
  { intros H0. rewrite H0 in Hm. exact (Qlt_irrefl 0 Hm). }
  assert (m / m == 1)%Q as Hone by (unfold Qdiv; apply Qmult_inv_r; exact Hm0).
  destruct (amax_spec _ _ Hmax) as [Hin Hall].
  exists (map (fun x => (x / m)%Q) col). split; [|split].
  - rewrite (normalized_spectrum_given _ _ _ Hcol Hmax), map_map. f_equal.
    apply map_ext. intros x. apply true_divide_nonzero, Hm0.
  - apply Forall_map. rewrite Forall_forall in Hall, Hpos. apply Forall_forall.
    intros x Hx. cbn [ylim fst snd].
    assert (x / m <= 1)%Q as Hle.
    { rewrite <- Hone. apply Qdiv_le_compat; [exact Hm | apply Hall, Hx]. }
    split; [|split; [exact Hle|]].
    + unfold Qdiv. apply Qmult_le_0_compat; [apply Hpos, Hx|].
      apply Qinv_le_0_compat, Qlt_le_weak, Hm.
    + eapply Qle_lt_trans; [exact Hle | reflexivity].
  - apply Exists_exists. exists (m / m)%Q. split; [|exact Hone].
    apply list_elem_of_In, (in_map (fun x => (x / m)%Q)), Hin.
Qed.

Lemma normalized_spectrum_within_ylim_witness :
  exists ys,
    normalized_spectrum run1_spectrum = Returned (map Fin ys) /\
    Forall (fun y => (fst ylim <= y)%Q /\ (y <= 1)%Q /\ (y < snd ylim)%Q) ys /\
    Exists (fun y => (y == 1)%Q) ys.
Proof.
  apply (normalized_spectrum_within_ylim run1_spectrum [2; 4; 1]%Q 4%Q).
  - reflexivity.
  - reflexivity.
  - reflexivity.
  - repeat (apply Forall_cons; split; [unfold Qle; cbn; lia|]). apply Forall_nil_2.
Defined.

Lemma join_absolute (a b : string) :
  os_path.startswith_sep b = true -> os_path.join a b = b.
Proof. intros H. unfold os_path.join. rewrite H. reflexivity. Qed.

(** X14: an absolute directory has no fallback.  For a directory name that
    starts with [/], the path tried under [calculations] is the name itself,
    so when the directory does not exist the loader prints the error and
    returns [None], whatever [calculations] holds. *)
Theorem absolute_directory_has_no_fallback (fs : filesystem) (directory : string) :
  os_path.startswith_sep directory = true ->
  fs_exists fs directory = false ->
  os_path.join "calculations" directory = directory /\
  load_calculated_data fs directory =
    (["Error could not find " ++ directory]%string, Returned None).
Proof.
  intros Habs Hno. pose proof (join_absolute "calculations" directory Habs) as E.
  split; [exact E|].
  unfold load_calculated_data. rewrite E, Hno. reflexivity.
Qed.

Lemma absolute_directory_has_no_fallback_witness :
  os_path.join "calculations" "/data/run1" = "/data/run1"%string /\
  load_calculated_data run1_fs "/data/run1" =
    (["Error could not find /data/run1"]%string, Returned None).
Proof.
  apply (absolute_directory_has_no_fallback run1_fs "/data/run1"); reflexivity.
Defined.

Lemma amin_amax_enclose (xs : list Q) :
  xs <> [] ->
  exists lo hi,
    np.amin xs = Returned lo /\ np.amax xs = Returned hi /\
    Forall (fun x => (lo <= x)%Q /\ (x <= hi)%Q) xs.
Proof.
  intros Hne. destruct xs as [|x rest]; [congruence|].
  eexists _, _. split; [reflexivity|]. split; [reflexivity|].
  destruct (amin_spec (x :: rest) _ eq_refl) as [_ Hlo].
  destruct (amax_spec (x :: rest) _ eq_refl) as [_ Hhi].
  rewrite Forall_forall in Hlo, Hhi. apply Forall_forall. intros y Hy.
  split; [apply Hlo, Hy | apply Hhi, Hy].
Qed.

(** X15: the extent of the heat map encloses the axes.  For axes with at
    least one sample the extent is [(left, right, bottom, top)] with every
    sample of [l0] between [left] and [right] and every sample of [dl]
    between [bottom] and [top]; when an axis has no sample, computing the
    extent raises [ValueError]. *)
Theorem extent_encloses_axes (l0 dl : np.ndarray) :
  (np.ravel l0 <> [] -> np.ravel dl <> [] ->
   exists left right bottom top,
     extent l0 dl = Returned (left, right, bottom, top) /\
     Forall (fun x => (left <= x)%Q /\ (x <= right)%Q) (np.ravel l0) /\
     Forall (fun y => (bottom <= y)%Q /\ (y <= top)%Q) (np.ravel dl)) /\
  (np.ravel l0 = [] \/ np.ravel dl = [] -> extent l0 dl = Raised ValueError).
Proof.
  split.
  - intros Hl0 Hdl.
    destruct (amin_amax_enclose _ Hl0) as (left & right & El & Er & Hx).
    destruct (amin_amax_enclose _ Hdl) as (bottom & top & Eb & Et & Hy).
    exists left, right, bottom, top. unfold extent, mbind, outcome_bind.
    rewrite El, Er, Eb, Et. auto.
  - unfold extent, mbind, outcome_bind. intros [E|E].
    + rewrite E. reflexivity.
    + rewrite E. destruct (np.ravel l0) as [|x rest]; reflexivity.
Qed.

Lemma extent_encloses_axes_witness :
  exists left right bottom top,
    extent (np.Vec [1; 2; 3]%Q) (np.Vec [10; 20]%Q) = Returned (left, right, bottom, top) /\
    Forall (fun x => (left <= x)%Q /\ (x <= right)%Q) [1; 2; 3]%Q /\
    Forall (fun y => (bottom <= y)%Q /\ (y <= top)%Q) [10; 20]%Q.
Proof.
  apply (extent_encloses_axes (np.Vec [1; 2; 3]%Q) (np.Vec [10; 20]%Q)); discriminate.
Defined.

(** ** The number of peaks *)

Lemma py_int_below_one (x : Q) : (x < 1)%Q -> (py_int x <= 0)%Z.
Proof.
  intros Hx. unfold py_int. destruct (Qle_bool 0 x) eqn:E.
  - assert (Qfloor x < 1)%Z; [|lia].
    rewrite Zlt_Qlt. eapply Qle_lt_trans; [apply Qfloor_le | exact Hx].
  - assert (x < 0)%Q as Hneg.
    { apply Qnot_le_lt. intros H. apply Qle_bool_iff in H. congruence. }
    assert (Qceiling x - 1 < 0)%Z; [|lia].
    rewrite Zlt_Qlt. eapply Qlt_trans; [apply Qceiling_lt | exact Hneg].
Qed.

(** X16: a peak count below one draws nothing.  [--npeaks x] with a finite
    [x] is truncated towards zero, so for every finite [x < 1], negative
    values included, the marker loop has no iteration: it returns no marker
    and raises nothing, whatever the peak tables hold. *)
Theorem peak_count_below_one_draws_nothing (peak : list peak_table) (wi : nat) (x : Q) :
  (x < 1)%Q ->
  peak_markers peak wi (npeaks_of (Some x)) = Returned [].
Proof.
  intros Hx. unfold peak_markers, range, npeaks_of.
  rewrite (Z2Nat.nonpos _ (py_int_below_one x Hx)). reflexivity.
Qed.

Lemma peak_count_below_one_draws_nothing_witness :
  peak_markers [] 5 (npeaks_of (Some (-2.5)%Q)) = Returned [].
Proof.
  apply (peak_count_below_one_draws_nothing [] 5 (-2.5)%Q). reflexivity.
Defined.

(** * Axes as they are loaded *)

Lemma filter_singletons (ws : list Q) :
  List.filter (fun r => negb (np.is_empty_row r)) (map (fun x => [x]) ws)
  = map (fun x => [x]) ws.
Proof.
  induction ws as [|x ws IH]; [reflexivity|]. cbn. rewrite IH. reflexivity.
Qed.

Lemma singletons_same_length (ws : list Q) :
  forallb (fun r : list Q => length r =? 1) (map (fun x => [x]) ws) = true.
Proof. induction ws as [|x ws IH]; [reflexivity | exact IH]. Qed.

Lemma singletons_single (ws : list Q) :
  forallb np.is_single (map (fun x => [x]) ws) = true.
Proof. induction ws as [|x ws IH]; [reflexivity | exact IH]. Qed.

Lemma concat_singletons (ws : list Q) : concat (map (fun x => [x]) ws) = ws.
Proof. induction ws as [|x ws IH]; [reflexivity|]. cbn. rewrite IH. reflexivity. Qed.

(** An axis file of two or more samples is loaded as the one-dimensional
    array of its samples. *)
Lemma loadtxt_axis (fs : filesystem) (p : string) (lines : list (list Q)) (ws : list Q) :
  fs_numbers fs p = Some lines ->
  is_axis_file lines ws ->
  2 <= length ws ->
  np.loadtxt fs p = Returned (np.Vec ws).
Proof.
  intros Hp Hfile Hlen. unfold np.loadtxt. rewrite Hp.
  destruct ws as [|x0 [|x1 ws]]; [cbn in Hlen; lia | cbn in Hlen; lia |].
  destruct Hfile as [-> | ->].
  - rewrite filter_singletons. cbn [map].
    change (forallb (fun r : list Q => length r =? length [x0])
              ([x0] :: [x1] :: map (fun x => [x]) ws))
      with (forallb (fun r : list Q => length r =? 1) (map (fun x => [x]) (x0 :: x1 :: ws))).
    rewrite singletons_same_length.
    change ([x0] :: [x1] :: map (fun x => [x]) ws) with (map (fun x : Q => [x]) (x0 :: x1 :: ws)).
    cbn [map]. rewrite squeeze_several.
    change ([x0] :: [x1] :: map (fun x => [x]) ws) with (map (fun x : Q => [x]) (x0 :: x1 :: ws)).
    rewrite singletons_single, concat_singletons. reflexivity.
  - cbn [List.filter np.is_empty_row negb forallb]. rewrite Nat.eqb_refl. reflexivity.
Qed.

(** C1 (as the code has it): for a strictly ascending tertiary axis of two
    or more samples, loaded with [np.loadtxt] from its file, with minimum
    [lo] and maximum [hi]: a requested value below [lo] selects index 0 and
    displays [lo], without error; a requested value above [hi] gives the
    insertion index [len(w)], one past the last sample, and the lookup
    [w[wi]] raises [IndexError]: the index is not clamped to [len(w)-1]. *)
Theorem out_of_range_selection
    (fs : filesystem) (p : string) (lines : list (list Q)) (ws : list Q) (lo hi v : Q) :
  fs_numbers fs p = Some lines ->
  is_axis_file lines ws ->
  2 <= length ws ->
  strictly_ascending ws = true ->
  np.amin ws = Returned lo ->
  np.amax ws = Returned hi ->
  exists w,
    np.loadtxt fs p = Returned w /\
    np.ravel w = ws /\
    ((v < lo)%Q -> select_slice w (Some v) = Returned (0, np.Scalar lo)) /\
    ((hi < v)%Q ->
       np.searchsorted w v = Returned (length ws) /\
       select_slice w (Some v) = Raised IndexError).
Proof.
  intros Hp Hfile Hlen Hs Hlo Hhi. exists (np.Vec ws).
  split; [exact (loadtxt_axis fs p lines ws Hp Hfile Hlen)|].
  split; [reflexivity|]. exact (select_out_of_range ws lo hi v Hs Hlo Hhi).
Qed.

Lemma out_of_range_selection_witness :
  (exists w,
     np.loadtxt run1_fs "calculations/run1/w.txt" = Returned w /\
     select_slice w (Some (-5)%Q) = Returned (0, np.Scalar 0.5%Q)) /\
  (exists w,
     np.loadtxt run1_fs "calculations/run1/w.txt" = Returned w /\
     np.searchsorted w 5%Q = Returned 2 /\
     select_slice w (Some 5%Q) = Raised IndexError).
Proof.
  split.
  - destruct (out_of_range_selection run1_fs "calculations/run1/w.txt"
                [[0.5]; [1.0]]%Q [0.5; 1.0]%Q 0.5%Q 1.0%Q (-5)%Q)
      as (w & Ew & _ & Hbelow & _);
      [reflexivity | left; reflexivity | cbn; lia | reflexivity | reflexivity
       | reflexivity |].
    exists w. split; [exact Ew | apply Hbelow; reflexivity].
  - destruct (out_of_range_selection run1_fs "calculations/run1/w.txt"
                [[0.5]; [1.0]]%Q [0.5; 1.0]%Q 0.5%Q 1.0%Q 5%Q)
      as (w & Ew & _ & _ & Habove);
      [reflexivity | left; reflexivity | cbn; lia | reflexivity | reflexivity
       | reflexivity |].
    exists w. split; [exact Ew | apply Habove; reflexivity].
Defined.

(** On a loaded axis of two or more samples the default width selects the
    last index and displays the last sample. *)
Lemma default_width_on_loaded_axis
    (fs : filesystem) (p : string) (lines : list (list Q)) (ws : list Q) :
  fs_numbers fs p = Some lines ->
  is_axis_file lines ws ->
  2 <= length ws ->
  strictly_ascending ws = true ->
  exists w m,
    np.loadtxt fs p = Returned w /\
    ws !! (length ws - 1) = Some m /\
    select_slice w None = Returned (length ws - 1, np.Scalar m).
Proof.
  intros Hp Hfile Hlen Hs.
  destruct (default_width_selects_last ws Hs) as (_ & Hmax & Hsel).
  destruct Hmax as [m Em]; [intros ->; cbn in Hlen; lia|].
  destruct (Hsel m Em) as (_ & Hlast & Hselect).
  exists (np.Vec ws), m.
  split; [exact (loadtxt_axis fs p lines ws Hp Hfile Hlen)|]. auto.
Qed.

(** C8 on a calculation with a single sample of [w]: the loader returns it
    with [w] a 0-d array; the axis is strictly ascending and the default
    width is its maximum 0.5, but the selection does not give the last index
    0: [np.searchsorted] raises [ValueError] on the 0-d array. *)
Theorem default_width_on_one_sample_axis :
  fs_numbers one_sample_fs "one/w.txt" = Some [[0.5]]%Q /\
  load_calculated_data one_sample_fs "one" =
    ([], Returned (Some (one_sample_calc, np.Mat [[400; 2]; [500; 4]]%Q))) /\
  w one_sample_calc = np.Scalar 0.5%Q /\
  strictly_ascending (np.ravel (w one_sample_calc)) = true /\
  display_width None (w one_sample_calc) = Returned 0.5%Q /\
  np.searchsorted (w one_sample_calc) 0.5%Q = Raised ValueError /\
  select_slice (w one_sample_calc) None = Raised ValueError.
Proof. repeat split; vm_compute; reflexivity. Qed.

(** X7: on a strictly ascending axis of two or more samples, loaded with
    [np.loadtxt] from its file, a requested value up to the maximum is not
    an error: the script selects the first sample that is not below the
    requested value (every earlier sample is below it) and displays that
    sample. *)
Theorem request_within_range_selects_next_sample
    (fs : filesystem) (p : string) (lines : list (list Q)) (ws : list Q) (hi v : Q) :
  fs_numbers fs p = Some lines ->
  is_axis_file lines ws ->
  2 <= length ws ->
  strictly_ascending ws = true ->
  np.amax ws = Returned hi ->
  (v <= hi)%Q ->
  exists w wi x,
    np.loadtxt fs p = Returned w /\
    select_slice w (Some v) = Returned (wi, np.Scalar x) /\
    ws !! wi = Some x /\
    (v <= x)%Q /\
    (forall j y, j < wi -> ws !! j = Some y -> (y < v)%Q).
Proof.
  intros Hp Hfile Hlen Hs Hhi Hv.
  destruct (select_within_range ws hi v Hs Hhi Hv) as (wi & x & Hsel).
  exists (np.Vec ws), wi, x.
  split; [exact (loadtxt_axis fs p lines ws Hp Hfile Hlen) | exact Hsel].
Qed.

Lemma request_within_range_selects_next_sample_witness :
  exists w wi x,
    np.loadtxt run1_fs "calculations/run1/w.txt" = Returned w /\
    select_slice w (Some 0.51%Q) = Returned (wi, np.Scalar x) /\
    [0.5; 1.0]%Q !! wi = Some x /\
    (0.51 <= x)%Q /\
    (forall j y, j < wi -> [0.5; 1.0]%Q !! j = Some y -> (y < 0.51)%Q).
Proof.
  apply (request_within_range_selects_next_sample run1_fs "calculations/run1/w.txt"
           [[0.5]; [1.0]]%Q [0.5; 1.0]%Q 1.0%Q 0.51%Q).
  - reflexivity.
  - left. reflexivity.
  - cbn. lia.
  - reflexivity.
  - reflexivity.
  - unfold Qle. cbn. lia.
Defined.

(** X8: requesting the value of a sample selects that sample: on a strictly
    ascending axis of two or more samples, loaded with [np.loadtxt] from its
    file, whose sample [i] is [x], the request [x] selects index [i] and
    displays [x]. *)
Theorem request_of_a_sample_selects_it
    (fs : filesystem) (p : string) (lines : list (list Q)) (ws : list Q)
    (i : nat) (x : Q) :
  fs_numbers fs p = Some lines ->
  is_axis_file lines ws ->
  2 <= length ws ->
  strictly_ascending ws = true ->
  ws !! i = Some x ->
  exists w,
    np.loadtxt fs p = Returned w /\
    select_slice w (Some x) = Returned (i, np.Scalar x).
Proof.
  intros Hp Hfile Hlen Hs Hx. exists (np.Vec ws).
  split; [exact (loadtxt_axis fs p lines ws Hp Hfile Hlen)|].
  exact (select_exact_sample ws i x Hs Hx).
Qed.

Lemma request_of_a_sample_selects_it_witness :
  exists w,
    np.loadtxt run1_fs "calculations/run1/w.txt" = Returned w /\
    select_slice w (Some 1.0%Q) = Returned (1, np.Scalar 1.0%Q).
Proof.
  apply (request_of_a_sample_selects_it run1_fs "calculations/run1/w.txt"
           [[0.5]; [1.0]]%Q [0.5; 1.0]%Q 1 1.0%Q).
  - reflexivity.
  - left. reflexivity.
  - cbn. lia.
  - reflexivity.
  - reflexivity.
Defined.
